(** * SPI access layer of bbbandroidHAL: [jni/spi.c]

    A shallow embedding of the userspace SPI wrapper ([spiTransfer],
    [spiReadByte], [spiReadBytes], [spiWriteRegByte], [spiWriteBytes],
    [spiSetMode], [spiSetSpeed], [spiSetBitsPerWord], [spiOpen],
    [spiClose]) together with the properties of its observable contract.

    The C functions do nothing but build small buffers and call [open],
    [ioctl] and [close].  The operating system is therefore modelled as
    an oracle ([Kernel]) whose answers may depend on everything that
    happened before, and every system call is appended to a trace.  The
    C functions become computations in a state monad over that trace. *)

From Stdlib Require Import ZArith List String Ascii Bool Lia DecimalString.
Import ListNotations.
Open Scope Z_scope.

(** ** Machine integers *)

(** [uint8_t] and [unsigned char]: conversion to the type reduces modulo 2^8. *)
Definition u8 (x : Z) : Z := x mod 256.

(** [uint32_t]. *)
Definition u32 (x : Z) : Z := x mod 4294967296.

Definition INT_MAX : Z := 2147483647.

(** [int]: the value of an [int] expression, reduced to 32 bits two's
    complement.  (C leaves overflow undefined; the usual wrap-around is
    written out so that every expression has a value.) *)
Definition sint (x : Z) : Z := (x + 2147483648) mod 4294967296 - 2147483648.

(** ** Buffers *)

(** A C array of bytes is the list of its elements; a pointer argument is
    modelled by the contents of the object it points to, whose length is
    the capacity of that object. *)
Definition buffer := list Z.

(** [memset(b, 0, n)] on a fresh array of [n] bytes. *)
Definition zeroed (n : nat) : buffer := repeat 0 n.

(** [b[i] = v].  (An index outside the array is undefined in C; the model
    leaves the array as it is.) *)
Fixpoint upd (b : buffer) (i : nat) (v : Z) : buffer :=
  match b, i with
  | [], _ => []
  | _ :: t, O => v :: t
  | h :: t, S j => h :: upd t j v
  end.

(** The contents of a buffer after some party has written the bytes [out]
    from its start: the buffer keeps its size, the bytes past [out] keep
    their value. *)
Definition fill (b : buffer) (out : list Z) : buffer :=
  firstn (List.length b) (out ++ skipn (List.length out) b).

(** [memcpy(dst, src + off, n)] into a fresh [dst] of [n] bytes. *)
Definition memcpy_from (src : buffer) (off n : nat) : buffer :=
  firstn n (skipn off src).

(** ** Formatting the device path *)

Definition MAX_PATH : nat := 50.

(** The conversion [%d] of [printf]. *)
Definition fmt_d (x : Z) : string := NilZero.string_of_int (Z.to_int x).

(** [snprintf(buf, size, ...)] stores at most [size - 1] characters of the
    formatted text, followed by the terminator. *)
Definition snprintf (size : nat) (text : string) : string :=
  substring 0 (size - 1) text.

(** The text of ["/dev/spidev%d.%d"] for [bus] and [device]. *)
Definition spidev_text (bus device : Z) : string :=
  ("/dev/spidev" ++ fmt_d bus ++ "." ++ fmt_d device)%string.

(** The contents of [fsBuf] in [spiOpen] after the [snprintf]. *)
Definition spidev_path (bus device : Z) : string :=
  snprintf MAX_PATH (spidev_text (u8 bus) (u8 device)).

(** ** The operating system *)

(** The [ioctl] requests on a configuration parameter. *)
Inductive request : Type :=
| SPI_IOC_WR_MODE
| SPI_IOC_RD_MODE
| SPI_IOC_WR_MAX_SPEED_HZ
| SPI_IOC_RD_MAX_SPEED_HZ
| SPI_IOC_WR_BITS_PER_WORD
| SPI_IOC_RD_BITS_PER_WORD.

(** The direction of a request: a read request stores into its argument. *)
Definition is_read (r : request) : bool :=
  match r with
  | SPI_IOC_RD_MODE | SPI_IOC_RD_MAX_SPEED_HZ | SPI_IOC_RD_BITS_PER_WORD => true
  | _ => false
  end.

(** Modelled from the spec: [struct spi_ioc_transfer], declared in
    [include/linux/spi/spidev.h], which is not among the sources.  The
    transfer descriptor of the specification: transmit buffer, receive
    buffer, length, clock speed and bits per word, which are exactly the
    fields [spiTransfer] assigns. *)
Record spi_ioc_transfer : Type := mk_transfer {
  tx_buf : buffer;
  rx_buf : buffer;
  len : Z;
  speed_hz : Z;
  bits_per_word : Z
}.

Inductive oflag : Type := O_RDWR.

(** One system call, with the value it returned. *)
Inductive event : Type :=
| EvOpen (path : string) (flags : oflag) (ret : Z)
| EvIoctl (fd : Z) (req : request) (arg : Z) (ret : Z)
| EvMessage (fd : Z) (xfer : spi_ioc_transfer) (ret : Z)
| EvClose (fd : Z) (ret : Z).

(** The state of the world: the system calls made so far, oldest first. *)
Definition World := list event.

(** The behaviour of the system: each answer is a function of the whole
    history, so any behaviour of a real kernel and device is an instance. *)
Record Kernel : Type := mk_kernel {
  (** [open(path, flags)]: a descriptor, or a negative value. *)
  k_open : World -> string -> oflag -> Z;
  (** [ioctl(fd, req, &arg)]: the result and the value left in [arg]. *)
  k_ioctl : World -> Z -> request -> Z -> Z * Z;
  (** [ioctl(fd, SPI_IOC_MESSAGE(1), &xfer)]: the result and the bytes
      stored from the start of the receive buffer. *)
  k_message : World -> Z -> spi_ioc_transfer -> Z * list Z;
  (** [close(fd)]. *)
  k_close : World -> Z -> Z;
  (** The bytes found in an automatic array that was never assigned. *)
  k_stack : World -> nat -> list Z
}.

(** ** The monad of system calls *)

Definition M (A : Type) : Type := World -> A * World.

Definition ret {A : Type} (a : A) : M A := fun w => (a, w).

Definition bind {A B : Type} (m : M A) (k : A -> M B) : M B :=
  fun w => let (a, w') := m w in k a w'.

Declare Scope spi_scope.
Delimit Scope spi_scope with spi.
Notation "x <- m ;; k" := (bind m (fun x => k))
  (at level 61, m at next level, right associativity) : spi_scope.
Notation "' p <- m ;; k" := (bind m (fun x => let p := x in k))
  (at level 61, p pattern, m at next level, right associativity) : spi_scope.
Open Scope spi_scope.

(** The descriptors that are open after a history: opened with a
    non-negative result and not closed since. *)
Fixpoint open_fds_from (acc : list Z) (w : World) : list Z :=
  match w with
  | [] => acc
  | EvOpen _ _ fd :: r =>
      open_fds_from (if 0 <=? fd then fd :: acc else acc) r
  | EvClose fd rc :: r =>
      open_fds_from (if rc =? 0 then remove Z.eq_dec fd acc else acc) r
  | _ :: r => open_fds_from acc r
  end.

Definition open_fds (w : World) : list Z := open_fds_from [] w.

(** The [close] calls of a history. *)
Definition closes (w : World) : list Z :=
  flat_map (fun e => match e with EvClose fd _ => [fd] | _ => [] end) w.

(** The configuration [ioctl]s of a history. *)
Definition config_calls (w : World) : list request :=
  flat_map (fun e => match e with EvIoctl _ r _ _ => [r] | _ => [] end) w.

(** The transfer descriptors handed to the system in a history. *)
Definition transfers (w : World) : list spi_ioc_transfer :=
  flat_map (fun e => match e with EvMessage _ x _ => [x] | _ => [] end) w.

Section Spi.

Variable K : Kernel.

(** *** System calls *)

Definition sys_open (path : string) (flags : oflag) : M Z :=
  fun w => let fd := k_open K w path flags in
           (fd, w ++ [EvOpen path flags fd]).

(** [ioctl] on a configuration parameter: returns the result and the value
    of the argument object after the call. *)
Definition sys_ioctl (fd : Z) (req : request) (arg : Z) : M (Z * Z) :=
  fun w => let (rc, v) := k_ioctl K w fd req arg in
           ((rc, if is_read req then v else arg),
            w ++ [EvIoctl fd req arg rc]).

(** [ioctl(fd, SPI_IOC_MESSAGE(1), &xfer)]: returns the result and the
    receive buffer after the call. *)
Definition sys_message (fd : Z) (xfer : spi_ioc_transfer)
  : M (Z * buffer) :=
  fun w => let (rc, out) := k_message K w fd xfer in
           ((rc, fill (rx_buf xfer) (map u8 out)),
            w ++ [EvMessage fd xfer rc]).

Definition sys_close (fd : Z) : M Z :=
  fun w => let rc := k_close K w fd in (rc, w ++ [EvClose fd rc]).

(** An automatic array of [n] bytes that has not been assigned yet. *)
Definition auto_array (n : nat) : M buffer :=
  fun w => (firstn n (map u8 (k_stack K w n) ++ repeat 0 n), w).

(** *** The functions of [spi.c] *)

(** [int spiTransfer(const int spiFD, const uint8_t tx[],
    const uint8_t rx[], const int len)]; returns the result together with
    the contents of [rx] after the call. *)
Definition spiTransfer (spiFD : Z) (tx rx : buffer) (len : Z)
  : M (Z * buffer) :=
  let transfer :=
    {| tx_buf := tx; rx_buf := rx; len := len;
       speed_hz := 10000; bits_per_word := 8 |} in
  '(rc, rx') <- sys_message spiFD transfer ;;
  if rc <? 0 then ret (-1, rx') else ret (0, rx').

(** [int spiReadByte(const int spiFD, const uint8_t regAdd)]. *)
Definition spiReadByte (spiFD regAdd : Z) : M Z :=
  let regAdd := u8 regAdd in
  let tx := zeroed 2 in
  let rx := zeroed 2 in
  let tx := upd tx 0 (u8 (Z.lor 128 regAdd)) in
  '(_, rx) <- spiTransfer spiFD tx rx 2 ;;
  ret (nth 1 rx 0).

(** [unsigned char* spiReadBytes(const int spiFD, const int len,
    const uint8_t startAdd)]; the result is the contents of the array the
    returned pointer points to (the allocation is taken to succeed). *)
Definition spiReadBytes (spiFD len startAdd : Z) : M buffer :=
  let startAdd := u8 startAdd in
  let n := Z.to_nat (sint (len + 1)) in
  let tx := zeroed n in
  rx <- auto_array n ;;
  let tx := upd tx 0 (u8 (Z.lor (Z.lor 128 64) startAdd)) in
  '(_, rx) <- spiTransfer spiFD tx rx (sint (len + 1)) ;;
  let data := memcpy_from rx 1 (Z.to_nat len) in
  ret data.

(** [int spiWriteRegByte(const int spiFD, const uint8_t regAdd,
    const uint8_t data)]. *)
Definition spiWriteRegByte (spiFD regAdd data : Z) : M Z :=
  let regAdd := u8 regAdd in
  let data := u8 data in
  tx <- auto_array 2 ;;
  let rx := zeroed 2 in
  let tx := upd tx 0 (u8 regAdd) in
  let tx := upd tx 1 data in
  _ <- spiTransfer spiFD tx rx 2 ;;
  ret 0.

(** [int spiWriteBytes(const int spiFD, const uint8_t data[],
    const int len)]. *)
Definition spiWriteBytes (spiFD : Z) (data : buffer) (len : Z) : M Z :=
  let null := 0 in
  _ <- spiTransfer spiFD data [null] len ;;
  ret 0.

(** [int spiSetMode(const int spiFD, const uint8_t mode)]. *)
Definition spiSetMode (spiFD mode : Z) : M Z :=
  let mode := u8 mode in
  '(rc, mode) <- sys_ioctl spiFD SPI_IOC_WR_MODE mode ;;
  if rc =? -1 then ret (-1) else
  '(rc, mode) <- sys_ioctl spiFD SPI_IOC_RD_MODE mode ;;
  if rc =? -1 then ret (-1) else
  ret 0.

(** [int spiSetSpeed(const int spiFD, const uint32_t speed)]. *)
Definition spiSetSpeed (spiFD speed : Z) : M Z :=
  let speed := u32 speed in
  '(rc, speed) <- sys_ioctl spiFD SPI_IOC_WR_MAX_SPEED_HZ speed ;;
  if rc =? -1 then ret (-1) else
  '(rc, speed) <- sys_ioctl spiFD SPI_IOC_RD_MAX_SPEED_HZ speed ;;
  if rc =? -1 then ret (-1) else
  ret 0.

(** [int spiSetBitsPerWord(const int spiFD, const uint8_t bpw)]. *)
Definition spiSetBitsPerWord (spiFD bpw : Z) : M Z :=
  let bpw := u8 bpw in
  '(rc, bpw) <- sys_ioctl spiFD SPI_IOC_WR_BITS_PER_WORD bpw ;;
  if rc =? -1 then ret (-1) else
  '(rc, bpw) <- sys_ioctl spiFD SPI_IOC_RD_BITS_PER_WORD bpw ;;
  if rc =? -1 then ret (-1) else
  ret 0.

(** [int spiOpen(const uint8_t bus, const uint8_t device,
    const uint32_t speed, const uint8_t mode, const uint8_t bpw)]. *)
Definition spiOpen (bus device speed mode bpw : Z) : M Z :=
  let fsBuf := spidev_path bus device in
  spiFD <- sys_open fsBuf O_RDWR ;;
  if spiFD <? 0 then ret (-1) else
  r <- spiSetMode spiFD mode ;;
  if r =? -1 then ret (-1) else
  r <- spiSetSpeed spiFD speed ;;
  if r =? -1 then ret (-1) else
  r <- spiSetBitsPerWord spiFD bpw ;;
  if r =? -1 then ret (-1) else
  ret spiFD.

(** [void spiClose(const int spiFD)]. *)
Definition spiClose (spiFD : Z) : M unit :=
  _ <- sys_close spiFD ;;
  ret tt.

End Spi.

Arguments sys_open K path flags w /.
Arguments sys_ioctl K fd req arg w /.
Arguments sys_message K fd xfer w /.
Arguments sys_close K fd w /.
Arguments ret {A} a w /.
Arguments bind {A B} m k w /.

(** ** Sample systems, used to evaluate the functions *)

(** A system given by the result of [open], the behaviour of the
    configuration requests and the behaviour of a transfer, all
    independent of the history; [close] succeeds and automatic storage is
    found filled with [0xCC]. *)
Definition board (open_ret : Z) (cfg : request -> Z -> Z * Z)
  (msg : spi_ioc_transfer -> Z * list Z) : Kernel :=
  {| k_open := fun _ _ _ => open_ret;
     k_ioctl := fun _ _ req arg => cfg req arg;
     k_message := fun _ _ x => msg x;
     k_close := fun _ _ => 0;
     k_stack := fun _ n => repeat 204 n |}.

(** Configuration requests that succeed and read back what was written. *)
Definition cfg_ok (_ : request) (arg : Z) : Z * Z := (0, arg).

(** A device that answers every transfer with zero bytes. *)
Definition msg_zeros (x : spi_ioc_transfer) : Z * list Z :=
  (0, repeat 0 (Z.to_nat (len x))).

(** A reachable device on which everything succeeds. *)
Definition K_ok : Kernel := board 3 cfg_ok msg_zeros.

(** No device node: [open] fails. *)
Definition K_no_device : Kernel := board (-1) cfg_ok msg_zeros.

(** The device node opens, but the driver rejects the mode. *)
Definition K_mode_rejected : Kernel :=
  board 3 (fun req arg =>
             match req with
             | SPI_IOC_WR_MODE => (-1, arg)
             | _ => (0, arg)
             end) msg_zeros.

(** Every transfer fails and stores nothing. *)
Definition K_transfer_fails : Kernel :=
  board 3 cfg_ok (fun _ => (-1, [])).

(** A device that answers every transfer with [0xAA, 1, 2, 3]. *)
Definition K_pattern : Kernel :=
  board 3 cfg_ok (fun _ => (0, [170; 1; 2; 3])).

(** A driver that accepts every value but reports a different one on
    read-back. *)
Definition K_mismatch : Kernel :=
  board 3 (fun req arg => if is_read req then (0, arg + 1) else (0, arg))
        msg_zeros.

(** Every transfer succeeds but the device stores nothing. *)
Definition K_no_reply : Kernel :=
  board 3 cfg_ok (fun _ => (0, [])).

(** ** Predicates on histories *)

(** The receive buffer of a descriptor can hold the bytes of the transfer. *)
Definition rx_covers (x : spi_ioc_transfer) : bool :=
  len x <=? Z.of_nat (List.length (rx_buf x)).

(** The descriptor built by [spiTransfer] for its arguments. *)
Definition descriptor (tx rx : buffer) (n : Z) : spi_ioc_transfer :=
  {| tx_buf := tx; rx_buf := rx; len := n;
     speed_hz := 10000; bits_per_word := 8 |}.

(** The write-then-read-back contract of a setter [setter] that uses the
    requests [wr] and [rd] on a parameter of the type converted to by
    [conv]: the value is written, then read back into the same object;
    the result is -1 exactly when one of the two requests returned -1,
    and depends on nothing else (in particular not on the value read
    back). *)
Definition write_readback (K : Kernel) (setter : Z -> Z -> M Z)
  (wr rd : request) (conv : Z -> Z) : Prop :=
  forall (w : World) (spiFD v : Z),
    let a := conv v in
    let wr_rc := fst (k_ioctl K w spiFD wr a) in
    let w1 := w ++ [EvIoctl spiFD wr a wr_rc] in
    let rd_rc := fst (k_ioctl K w1 spiFD rd a) in
    let back := snd (k_ioctl K w1 spiFD rd a) in
    let w2 := w1 ++ [EvIoctl spiFD rd a rd_rc] in
    let r := setter spiFD v w in
    (wr_rc = -1 -> r = (-1, w1)) /\
    (wr_rc <> -1 -> rd_rc = -1 -> r = (-1, w2)) /\
    (wr_rc <> -1 -> rd_rc <> -1 -> r = (0, w2)) /\
    (fst r = -1 <-> wr_rc = -1 \/ (wr_rc <> -1 /\ rd_rc = -1)) /\
    (wr_rc <> -1 -> rd_rc <> -1 -> back <> a -> fst r = 0).

(** The configuration requests of a history, each with the descriptor it
    was issued on and the value of its argument object. *)
Definition config_log (w : World) : list (Z * request * Z) :=
  flat_map (fun e => match e with
                     | EvIoctl fd r a _ => [(fd, r, a)]
                     | _ => []
                     end) w.

(** An event is a configuration request. *)
Definition is_config (e : event) : bool :=
  match e with
  | EvIoctl _ _ _ _ => true
  | _ => false
  end.

(** The configuration requests of a complete [spiOpen] on descriptor
    [fd], in the order of the source: mode, speed, bits per word, each
    written and then read back. *)
Definition open_requests (fd mode speed bpw : Z) : list (Z * request * Z) :=
  [ (fd, SPI_IOC_WR_MODE, u8 mode); (fd, SPI_IOC_RD_MODE, u8 mode);
    (fd, SPI_IOC_WR_MAX_SPEED_HZ, u32 speed);
    (fd, SPI_IOC_RD_MAX_SPEED_HZ, u32 speed);
    (fd, SPI_IOC_WR_BITS_PER_WORD, u8 bpw);
    (fd, SPI_IOC_RD_BITS_PER_WORD, u8 bpw) ].

(** The text of a string up to its first occurrence of the character [c],
    and the text after it. *)
Fixpoint split_at (c : ascii) (s : string) : string * string :=
  match s with
  | EmptyString => (EmptyString, EmptyString)
  | String a t =>
      if Ascii.eqb a c then (EmptyString, t)
      else let (l, r) := split_at c t in (String a l, r)
  end.

(** The character [c] occurs in a string. *)
Fixpoint occurs (c : ascii) (s : string) : bool :=
  match s with
  | EmptyString => false
  | String a t => Ascii.eqb a c || occurs c t
  end.

(** Destructs the answers of the system and the tests on them. *)
Ltac kernel_cases :=
  repeat match goal with
    | |- context [if ?b then _ else _] =>
        destruct b; cbn [fst snd]
    | |- context [k_ioctl ?K ?w ?fd ?r ?a] =>
        destruct (k_ioctl K w fd r a) as [? ?]; cbn [fst snd]
    | |- context [k_message ?K ?w ?fd ?x] =>
        destruct (k_message K w fd x) as [? ?]; cbn [fst snd]
    end.

(** ** Auxiliary facts *)

Lemma u8_id (x : Z) : 0 <= x < 256 -> u8 x = x.
Proof. intros H. unfold u8. apply Z.mod_small. exact H. Qed.

Lemma u8_range (x : Z) : 0 <= u8 x < 256.
Proof. unfold u8. apply Z.mod_pos_bound. lia. Qed.

Lemma sint_id (x : Z) : - 2147483648 <= x <= INT_MAX -> sint x = x.
Proof.
  unfold sint, INT_MAX. intros H.
  rewrite Z.mod_small by lia. lia.
Qed.

(** A property checked on [0 .. n-1] by evaluation holds below [n]. *)
Lemma below_by_cases (P : Z -> bool) (n : nat) :
  forallb (fun k => P (Z.of_nat k)) (seq 0 n) = true ->
  forall x, 0 <= x < Z.of_nat n -> P x = true.
Proof.
  intros H x Hx.
  rewrite forallb_forall in H.
  specialize (H (Z.to_nat x)).
  rewrite Z2Nat.id in H by lia.
  apply H. apply in_seq. lia.
Qed.

Lemma lor_read_flag (a : Z) : 0 <= a <= 63 -> u8 (Z.lor 128 (u8 a)) = Z.lor 128 a.
Proof.
  intros H.
  apply Z.eqb_eq.
  apply (below_by_cases (fun a => u8 (Z.lor 128 (u8 a)) =? Z.lor 128 a) 64);
    [ vm_compute; reflexivity | simpl; lia ].
Qed.

Lemma lor_burst_flag (a : Z) :
  0 <= a <= 63 -> u8 (Z.lor (Z.lor 128 64) (u8 a)) = Z.lor 192 a.
Proof.
  intros H.
  apply Z.eqb_eq.
  apply (below_by_cases
           (fun a => u8 (Z.lor (Z.lor 128 64) (u8 a)) =? Z.lor 192 a) 64);
    [ vm_compute; reflexivity | simpl; lia ].
Qed.

Lemma length_fill (b : buffer) (out : list Z) :
  List.length (fill b out) = List.length b.
Proof.
  unfold fill.
  rewrite length_firstn, length_app, length_skipn. lia.
Qed.

Lemma length_zeroed (n : nat) : List.length (zeroed n) = n.
Proof. apply repeat_length. Qed.

Lemma length_auto_array (K : Kernel) (n : nat) (w : World) :
  List.length (fst (auto_array K n w)) = n.
Proof.
  unfold auto_array. simpl.
  rewrite length_firstn, length_app, repeat_length. lia.
Qed.

Lemma auto_array_world (K : Kernel) (n : nat) (w : World) :
  snd (auto_array K n w) = w.
Proof. reflexivity. Qed.

Lemma upd_zeroed_head (n : nat) (v : Z) :
  upd (zeroed (S n)) 0 v = v :: repeat 0 n.
Proof. reflexivity. Qed.

Lemma transfers_app (w1 w2 : World) :
  transfers (w1 ++ w2) = transfers w1 ++ transfers w2.
Proof. apply flat_map_app. Qed.

Lemma closes_app (w1 w2 : World) : closes (w1 ++ w2) = closes w1 ++ closes w2.
Proof. apply flat_map_app. Qed.

Lemma config_calls_app (w1 w2 : World) :
  config_calls (w1 ++ w2) = config_calls w1 ++ config_calls w2.
Proof. apply flat_map_app. Qed.

(** The equation of [spiTransfer]: one transfer request, with the fixed
    clock and word size, and the receive buffer as the system left it. *)
Lemma spiTransfer_eq (K : Kernel) (fd : Z) (tx rx : buffer) (n : Z) (w : World) :
  let x := {| tx_buf := tx; rx_buf := rx; len := n;
              speed_hz := 10000; bits_per_word := 8 |} in
  spiTransfer K fd tx rx n w =
    ((if fst (k_message K w fd x) <? 0 then -1 else 0,
      fill rx (map u8 (snd (k_message K w fd x)))),
     w ++ [EvMessage fd x (fst (k_message K w fd x))]).
Proof.
  unfold spiTransfer. simpl.
  destruct (k_message K w fd _) as [rc out]. simpl.
  destruct (rc <? 0); reflexivity.
Qed.

Lemma spiSetMode_transfers (K : Kernel) (fd v : Z) (w : World) :
  transfers (snd (spiSetMode K fd v w)) = transfers w.
Proof.
  unfold spiSetMode, bind, sys_ioctl, ret. cbn [is_read]. kernel_cases;
    rewrite ?transfers_app; simpl; rewrite ?app_nil_r; reflexivity.
Qed.

Lemma spiSetSpeed_transfers (K : Kernel) (fd v : Z) (w : World) :
  transfers (snd (spiSetSpeed K fd v w)) = transfers w.
Proof.
  unfold spiSetSpeed, bind, sys_ioctl, ret. cbn [is_read]. kernel_cases;
    rewrite ?transfers_app; simpl; rewrite ?app_nil_r; reflexivity.
Qed.

Lemma spiSetBitsPerWord_transfers (K : Kernel) (fd v : Z) (w : World) :
  transfers (snd (spiSetBitsPerWord K fd v w)) = transfers w.
Proof.
  unfold spiSetBitsPerWord, bind, sys_ioctl, ret. cbn [is_read]. kernel_cases;
    rewrite ?transfers_app; simpl; rewrite ?app_nil_r; reflexivity.
Qed.

(** The equation of [spiOpen], in terms of the three setters. *)
Lemma spiOpen_eq (K : Kernel) (bus device speed mode bpw : Z) (w : World) :
  let path := spidev_path bus device in
  let fd := k_open K w path O_RDWR in
  let w1 := w ++ [EvOpen path O_RDWR fd] in
  let m := spiSetMode K fd mode w1 in
  let s := spiSetSpeed K fd speed (snd m) in
  let b := spiSetBitsPerWord K fd bpw (snd s) in
  spiOpen K bus device speed mode bpw w =
    if fd <? 0 then (-1, w1)
    else if fst m =? -1 then (-1, snd m)
    else if fst s =? -1 then (-1, snd s)
    else if fst b =? -1 then (-1, snd b)
    else (fd, snd b).
Proof.
  intros path fd w1 m s b.
  unfold spiOpen, bind, sys_open, ret.
  fold path. fold fd. fold w1.
  destruct (fd <? 0); [reflexivity|].
  fold m. destruct m as [rm wm]. simpl fst. simpl snd in *.
  destruct (rm =? -1); [reflexivity|].
  fold s. destruct s as [rs ws]. simpl fst. simpl snd in *.
  destruct (rs =? -1); [reflexivity|].
  fold b. destruct b as [rb wb]. simpl fst. simpl snd.
  destruct (rb =? -1); reflexivity.
Qed.

Lemma spiOpen_transfers (K : Kernel) (bus device speed mode bpw : Z) (w : World) :
  transfers (snd (spiOpen K bus device speed mode bpw w)) = transfers w.
Proof.
  rewrite spiOpen_eq.
  set (path := spidev_path bus device).
  set (fd := k_open K w path O_RDWR).
  set (w1 := w ++ [EvOpen path O_RDWR fd]).
  assert (H1 : transfers w1 = transfers w).
  { unfold w1. rewrite transfers_app. simpl. apply app_nil_r. }
  pose proof (spiSetMode_transfers K fd mode w1) as Hm.
  pose proof (spiSetSpeed_transfers K fd speed
                (snd (spiSetMode K fd mode w1))) as Hs.
  pose proof (spiSetBitsPerWord_transfers K fd bpw
                (snd (spiSetSpeed K fd speed
                        (snd (spiSetMode K fd mode w1))))) as Hb.
  repeat match goal with
         | |- context [if ?c then _ else _] => destruct c
         end; simpl snd; congruence.
Qed.

Lemma testbit7_low (a : Z) : 0 <= a <= 127 -> Z.testbit a 7 = false.
Proof.
  intros H.
  apply negb_true_iff.
  apply (below_by_cases (fun a => negb (Z.testbit a 7)) 128);
    [ vm_compute; reflexivity | simpl; lia ].
Qed.

Lemma spiReadByte_eq (K : Kernel) (fd regAdd : Z) (w : World) :
  let x := descriptor [u8 (Z.lor 128 (u8 regAdd)); 0] [0; 0] 2 in
  spiReadByte K fd regAdd w =
    (nth 1 (fill [0; 0] (map u8 (snd (k_message K w fd x)))) 0,
     w ++ [EvMessage fd x (fst (k_message K w fd x))]).
Proof.
  unfold spiReadByte, bind. simpl zeroed. simpl upd.
  rewrite spiTransfer_eq. reflexivity.
Qed.

Lemma spiWriteRegByte_eq (K : Kernel) (fd regAdd data : Z) (w : World) :
  let x := descriptor [u8 (u8 regAdd); u8 data] [0; 0] 2 in
  spiWriteRegByte K fd regAdd data w =
    (0, w ++ [EvMessage fd x (fst (k_message K w fd x))]).
Proof.
  unfold spiWriteRegByte, bind.
  pose proof (length_auto_array K 2 w) as L.
  destruct (auto_array K 2 w) as [tx w'] eqn:E.
  assert (w' = w) by (pose proof (auto_array_world K 2 w) as W;
                      rewrite E in W; exact W).
  subst w'. simpl in L.
  destruct tx as [|t0 [|t1 [|t2 tx]]]; try discriminate L.
  simpl upd. simpl zeroed.
  rewrite spiTransfer_eq. reflexivity.
Qed.

Lemma spiWriteBytes_eq (K : Kernel) (fd : Z) (data : buffer) (n : Z) (w : World) :
  let x := descriptor data [0] n in
  spiWriteBytes K fd data n w =
    (0, w ++ [EvMessage fd x (fst (k_message K w fd x))]).
Proof.
  unfold spiWriteBytes, bind.
  rewrite spiTransfer_eq. reflexivity.
Qed.

Lemma spiReadBytes_eq (K : Kernel) (fd n startAdd : Z) (w : World) :
  let k := Z.to_nat (sint (n + 1)) in
  let rx0 := fst (auto_array K k w) in
  let x := descriptor (upd (zeroed k) 0 (u8 (Z.lor (Z.lor 128 64) (u8 startAdd))))
                      rx0 (sint (n + 1)) in
  spiReadBytes K fd n startAdd w =
    (memcpy_from (fill rx0 (map u8 (snd (k_message K w fd x)))) 1 (Z.to_nat n),
     w ++ [EvMessage fd x (fst (k_message K w fd x))]).
Proof.
  unfold spiReadBytes, bind.
  cbv zeta.
  destruct (auto_array K (Z.to_nat (sint (n + 1))) w) as [rx0 w'] eqn:E.
  assert (w' = w) by
    (pose proof (auto_array_world K (Z.to_nat (sint (n + 1))) w) as W;
     rewrite E in W; exact W).
  subst w'. simpl fst.
  rewrite spiTransfer_eq. reflexivity.
Qed.

(** ** The transfer primitive *)

(** C6. Whatever happened on the channel before (in particular whatever
    mode, speed and word size [spiOpen] or the setters configured),
    [spiTransfer] hands the system exactly one descriptor, with clock
    speed 10000 Hz, 8 bits per word and the length it was called with. *)
Theorem spiTransfer_fixed_parameters :
  forall (K : Kernel) (w : World) (tx rx : buffer) (n : Z),
    (forall spiFD,
        transfers (snd (spiTransfer K spiFD tx rx n w)) =
          transfers w ++ [ {| tx_buf := tx; rx_buf := rx; len := n;
                              speed_hz := 10000; bits_per_word := 8 |} ])
    /\
    (forall bus device speed mode bpw mode' speed' bpw',
        let opened := spiOpen K bus device speed mode bpw w in
        let spiFD := fst opened in
        let w1 := snd (spiSetMode K spiFD mode' (snd opened)) in
        let w2 := snd (spiSetSpeed K spiFD speed' w1) in
        let w3 := snd (spiSetBitsPerWord K spiFD bpw' w2) in
        transfers (snd (spiTransfer K spiFD tx rx n w3)) =
          transfers w ++ [ {| tx_buf := tx; rx_buf := rx; len := n;
                              speed_hz := 10000; bits_per_word := 8 |} ]).
Proof.
  intros K w tx rx n.
  assert (G : forall w' fd,
             transfers (snd (spiTransfer K fd tx rx n w')) =
               transfers w' ++ [descriptor tx rx n]).
  { intros w' fd. rewrite spiTransfer_eq. simpl snd.
    rewrite transfers_app. reflexivity. }
  split.
  - intros fd. apply G.
  - intros. rewrite G. f_equal.
    subst w3 w2 w1.
    rewrite spiSetBitsPerWord_transfers, spiSetSpeed_transfers,
      spiSetMode_transfers.
    apply spiOpen_transfers.
Qed.

(** ** Register reads *)

(** C5. For a register address in [0,63], [spiReadByte] makes one
    transfer of 2 bytes whose transmit frame is [0x80 | regAdd, 0], and
    returns the byte at index 1 of the receive buffer: when the device
    delivers the two bytes [a, b], the result is [b] and [a] is dropped. *)
Theorem spiReadByte_frame :
  forall (K : Kernel) (w : World) (spiFD regAdd : Z),
    0 <= regAdd <= 63 ->
    let x := {| tx_buf := [Z.lor 128 regAdd; 0]; rx_buf := [0; 0]; len := 2;
                speed_hz := 10000; bits_per_word := 8 |} in
    let rx := fill [0; 0] (map u8 (snd (k_message K w spiFD x))) in
    spiReadByte K spiFD regAdd w =
      (nth 1 rx 0, w ++ [EvMessage spiFD x (fst (k_message K w spiFD x))])
    /\ (forall a b, snd (k_message K w spiFD x) = [a; b] ->
                    fst (spiReadByte K spiFD regAdd w) = u8 b).
Proof.
  intros K w fd regAdd H x rx.
  assert (E : spiReadByte K fd regAdd w =
                (nth 1 rx 0,
                 w ++ [EvMessage fd x (fst (k_message K w fd x))])).
  { rewrite spiReadByte_eq. unfold descriptor.
    rewrite (lor_read_flag regAdd H). reflexivity. }
  split; [exact E|].
  intros a b Hab. rewrite E. simpl fst.
  unfold rx. rewrite Hab. reflexivity.
Qed.

Lemma spiReadByte_frame_witness :
  0 <= 5 <= 63 /\
  spiReadByte K_pattern 3 5 [] =
    (1, [EvMessage 3 {| tx_buf := [133; 0]; rx_buf := [0; 0]; len := 2;
                        speed_hz := 10000; bits_per_word := 8 |} 0]).
Proof.
  assert (H : 0 <= 5 <= 63) by lia.
  split; [exact H|].
  exact (proj1 (spiReadByte_frame K_pattern [] 3 5 H)).
Defined.

(** C4. For a length of at least 1 (an [int] for which [len + 1] is
    still an [int]) and a start address in [0,63], [spiReadBytes] makes
    one transfer of [len + 1] bytes whose transmit frame is
    [0xC0 | startAdd] followed by zeros, and returns exactly [len]
    bytes, the bytes at offsets 1..len of the receive buffer. *)
Theorem spiReadBytes_frame :
  forall (K : Kernel) (w : World) (spiFD n startAdd : Z),
    1 <= n -> n < INT_MAX -> 0 <= startAdd <= 63 ->
    let rx0 := fst (auto_array K (Z.to_nat (n + 1)) w) in
    let x := {| tx_buf := Z.lor 192 startAdd :: repeat 0 (Z.to_nat n);
                rx_buf := rx0; len := n + 1;
                speed_hz := 10000; bits_per_word := 8 |} in
    let rx := fill rx0 (map u8 (snd (k_message K w spiFD x))) in
    let data := fst (spiReadBytes K spiFD n startAdd w) in
    snd (spiReadBytes K spiFD n startAdd w) =
      w ++ [EvMessage spiFD x (fst (k_message K w spiFD x))]
    /\ Z.of_nat (List.length (tx_buf x)) = n + 1
    /\ Z.of_nat (List.length rx) = n + 1
    /\ Z.lor 192 startAdd = Z.lor (Z.lor 128 64) startAdd
    /\ data = firstn (Z.to_nat n) (skipn 1 rx)
    /\ Z.of_nat (List.length data) = n
    /\ (forall i, (i < Z.to_nat n)%nat -> nth i data 0 = nth (S i) rx 0).
Proof.
  intros K w fd n startAdd Hn Hmax Hs rx0 x rx data.
  assert (Hi : sint (n + 1) = n + 1)
    by (apply sint_id; unfold INT_MAX in *; lia).
  assert (Hk : Z.to_nat (n + 1) = S (Z.to_nat n))
    by (rewrite Z2Nat.inj_add by lia; simpl; lia).
  assert (E : spiReadBytes K fd n startAdd w =
                (firstn (Z.to_nat n) (skipn 1 rx),
                 w ++ [EvMessage fd x (fst (k_message K w fd x))])).
  { rewrite spiReadBytes_eq. cbv zeta. rewrite Hi.
    fold rx0. unfold descriptor, memcpy_from.
    assert (T : upd (zeroed (Z.to_nat (n + 1))) 0
                  (u8 (Z.lor (Z.lor 128 64) (u8 startAdd))) =
                Z.lor 192 startAdd :: repeat 0 (Z.to_nat n)).
    { rewrite Hk, upd_zeroed_head, (lor_burst_flag startAdd Hs).
      reflexivity. }
    rewrite T. reflexivity. }
  assert (Lrx : List.length rx = S (Z.to_nat n)).
  { unfold rx. rewrite length_fill. unfold rx0.
    rewrite length_auto_array. exact Hk. }
  assert (Ld : List.length (firstn (Z.to_nat n) (skipn 1 rx)) = Z.to_nat n).
  { rewrite length_firstn, length_skipn, Lrx. lia. }
  unfold data. rewrite E. cbn [fst snd].
  split; [reflexivity|].
  split; [simpl; rewrite repeat_length; lia|].
  split; [rewrite Lrx; lia|].
  split; [reflexivity|].
  split; [reflexivity|].
  split; [rewrite Ld; lia|].
  intros i Hlt. rewrite nth_firstn.
  destruct (Nat.ltb_spec i (Z.to_nat n)); [|lia].
  rewrite nth_skipn. reflexivity.
Qed.

Lemma spiReadBytes_frame_witness :
  (1 <= 3 /\ 3 < INT_MAX /\ 0 <= 5 <= 63) /\
  spiReadBytes K_pattern 3 3 5 [] =
    ([1; 2; 3],
     [EvMessage 3 {| tx_buf := [197; 0; 0; 0]; rx_buf := [204; 204; 204; 204];
                     len := 4; speed_hz := 10000; bits_per_word := 8 |} 0]).
Proof.
  assert (H1 : 1 <= 3) by lia.
  assert (H2 : 3 < INT_MAX) by (unfold INT_MAX; lia).
  assert (H3 : 0 <= 5 <= 63) by lia.
  split; [exact (conj H1 (conj H2 H3))|].
  pose proof (spiReadBytes_frame K_pattern [] 3 3 5 H1 H2 H3) as H.
  cbv zeta in H.
  destruct H as [Hw [_ [_ [_ [Hd _]]]]].
  rewrite (surjective_pairing (spiReadBytes K_pattern 3 3 5 [])).
  rewrite Hw, Hd. reflexivity.
Defined.

Lemma read_byte_range (out : list Z) :
  0 <= nth 1 (fill [0; 0] (map u8 out)) 0 <= 255.
Proof.
  destruct out as [|a [|b out]]; simpl; try lia.
  pose proof (u8_range b). unfold fill. simpl. lia.
Qed.

(** C2. [spiReadByte] and [spiReadBytes] do not propagate an error of
    [spiTransfer]: its result is ignored.  [spiReadByte] returns the
    byte at index 1 of its zeroed two-byte receive buffer as the transfer
    left it, a value in 0..255, which is 0 when nothing was stored.
    [spiReadBytes] returns exactly [len] bytes, the bytes at offsets
    1..len of its receive array as the transfer left it.  Hence the
    results are the same on any two systems that store the same bytes
    and, for [spiReadBytes], whose receive array (which the function
    never initialises) held the same bytes before, whether or not the
    transfer failed on either. *)
Theorem reads_ignore_transfer_status :
  forall (K : Kernel) (w : World) (spiFD regAdd n startAdd : Z),
    0 <= n < INT_MAX ->
    let xb := descriptor [u8 (Z.lor 128 (u8 regAdd)); 0] [0; 0] 2 in
    let rxb := fill [0; 0] (map u8 (snd (k_message K w spiFD xb))) in
    let rx0 := fst (auto_array K (Z.to_nat (n + 1)) w) in
    let xs := descriptor (u8 (Z.lor 192 (u8 startAdd))
                            :: repeat 0 (Z.to_nat n)) rx0 (n + 1) in
    let rxs := fill rx0 (map u8 (snd (k_message K w spiFD xs))) in
    fst (spiReadByte K spiFD regAdd w) = nth 1 rxb 0
    /\ 0 <= fst (spiReadByte K spiFD regAdd w) <= 255
    /\ (snd (k_message K w spiFD xb) = [] ->
        fst (spiReadByte K spiFD regAdd w) = 0)
    /\ (forall a b rest, snd (k_message K w spiFD xb) = a :: b :: rest ->
        fst (spiReadByte K spiFD regAdd w) = u8 b)
    /\ fst (spiReadBytes K spiFD n startAdd w) =
         firstn (Z.to_nat n) (skipn 1 rxs)
    /\ Z.of_nat (List.length (fst (spiReadBytes K spiFD n startAdd w))) = n
    /\ (forall K2 : Kernel,
           (forall x, snd (k_message K2 w spiFD x) =
                      snd (k_message K w spiFD x)) ->
           fst (spiReadByte K2 spiFD regAdd w) =
             fst (spiReadByte K spiFD regAdd w)
           /\ ((forall k, k_stack K2 w k = k_stack K w k) ->
               fst (spiReadBytes K2 spiFD n startAdd w) =
                 fst (spiReadBytes K spiFD n startAdd w))).
Proof.
  intros K w fd regAdd n startAdd Hn xb rxb rx0 xs rxs.
  assert (Hi : sint (n + 1) = n + 1)
    by (apply sint_id; unfold INT_MAX in *; lia).
  assert (Hk : Z.to_nat (n + 1) = S (Z.to_nat n))
    by (rewrite Z2Nat.inj_add by lia; simpl; lia).
  assert (Eb : fst (spiReadByte K fd regAdd w) = nth 1 rxb 0)
    by (rewrite spiReadByte_eq; reflexivity).
  assert (Es : fst (spiReadBytes K fd n startAdd w) =
               firstn (Z.to_nat n) (skipn 1 rxs)).
  { rewrite spiReadBytes_eq. cbv zeta. cbn [fst]. rewrite Hi.
    unfold rxs, xs, rx0, memcpy_from.
    assert (T : upd (zeroed (Z.to_nat (n + 1))) 0
                  (u8 (Z.lor (Z.lor 128 64) (u8 startAdd))) =
                u8 (Z.lor 192 (u8 startAdd)) :: repeat 0 (Z.to_nat n)).
    { rewrite Hk, upd_zeroed_head. reflexivity. }
    rewrite T. reflexivity. }
  split; [exact Eb|].
  split; [rewrite Eb; apply read_byte_range|].
  split; [intros Hnone; rewrite Eb; unfold rxb; rewrite Hnone; reflexivity|].
  split; [intros a b rest Hab; rewrite Eb; unfold rxb; rewrite Hab;
          reflexivity|].
  split; [exact Es|].
  split.
  - rewrite Es, length_firstn, length_skipn.
    unfold rxs. rewrite length_fill. unfold rx0.
    rewrite length_auto_array. lia.
  - intros K2 Hmsg. split.
    + rewrite !spiReadByte_eq. cbv zeta. cbn [fst].
      rewrite Hmsg. reflexivity.
    + intros Hstk. rewrite !spiReadBytes_eq. cbv zeta. cbn [fst].
      unfold auto_array. cbn [fst]. rewrite Hmsg, Hstk. reflexivity.
Qed.

Lemma reads_ignore_transfer_status_witness :
  (0 <= 3 < INT_MAX
   /\ fst (fst (spiTransfer K_transfer_fails 3 [133; 0] [0; 0] 2 [])) = -1
   /\ fst (fst (spiTransfer K_no_reply 3 [133; 0] [0; 0] 2 [])) = 0
   /\ snd (k_message K_transfer_fails [] 3
             (descriptor [u8 (Z.lor 128 (u8 5)); 0] [0; 0] 2)) = []
   /\ snd (k_message K_pattern [] 3
             (descriptor [u8 (Z.lor 128 (u8 5)); 0] [0; 0] 2)) =
        [170; 1; 2; 3])
  /\ fst (spiReadByte K_transfer_fails 3 5 []) = 0
  /\ fst (spiReadByte K_pattern 3 5 []) = 1
  /\ fst (spiReadBytes K_pattern 3 3 5 []) = [1; 2; 3]
  /\ fst (spiReadBytes K_transfer_fails 3 3 5 []) = [204; 204; 204]
  /\ fst (spiReadByte K_no_reply 3 5 []) =
       fst (spiReadByte K_transfer_fails 3 5 [])
  /\ fst (spiReadBytes K_no_reply 3 3 5 []) =
       fst (spiReadBytes K_transfer_fails 3 3 5 []).
Proof.
  assert (H : 0 <= 3 < INT_MAX) by (unfold INT_MAX; lia).
  assert (N : snd (k_message K_transfer_fails [] 3
                     (descriptor [u8 (Z.lor 128 (u8 5)); 0] [0; 0] 2)) = [])
    by reflexivity.
  assert (P : snd (k_message K_pattern [] 3
                     (descriptor [u8 (Z.lor 128 (u8 5)); 0] [0; 0] 2)) =
                [170; 1; 2; 3])
    by reflexivity.
  pose proof (reads_ignore_transfer_status K_transfer_fails [] 3 5 3 5 H)
    as [_ [_ [Z0 [_ [Sf [_ Q]]]]]].
  pose proof (reads_ignore_transfer_status K_pattern [] 3 5 3 5 H)
    as [_ [_ [_ [B [Sp _]]]]].
  destruct (Q K_no_reply (fun _ => eq_refl)) as [Qb Qs].
  split.
  - split; [exact H|]. split; [reflexivity|]. split; [reflexivity|].
    split; [exact N | exact P].
  - split; [exact (Z0 N)|].
    split; [exact (B 170 1 [2; 3] P)|].
    split; [exact Sp|].
    split; [exact Sf|].
    split; [exact Qb | exact (Qs (fun _ => eq_refl))].
Defined.

(** C2, as stated, fails: with a system on which every transfer fails,
    [spiTransfer] returns -1, yet [spiReadByte] returns 0, a data byte
    and the very value it returns when the transfer succeeds, and
    [spiReadBytes] returns a buffer (here holding what was on the stack). *)
Lemma reads_swallow_transfer_failure :
  fst (fst (spiTransfer K_transfer_fails 3 [133; 0] [0; 0] 2 [])) = -1
  /\ spiReadByte K_transfer_fails 3 5 [] =
       (0, [EvMessage 3 (descriptor [133; 0] [0; 0] 2) (-1)])
  /\ fst (spiReadByte K_ok 3 5 []) = 0
  /\ spiReadBytes K_transfer_fails 3 3 5 [] =
       ([204; 204; 204],
        [EvMessage 3 (descriptor [197; 0; 0; 0] [204; 204; 204; 204] 4) (-1)]).
Proof. repeat split. Qed.

(** ** Register writes *)

(** C7. For a register address byte and a data byte, [spiWriteRegByte]
    makes one transfer of 2 bytes whose transmit frame is exactly
    [regAdd, data] (no flag is added: bit 7 of byte 0 is clear for an
    address below 128); nothing of the receive buffer reaches the caller,
    and the result is 0, whatever the transfer returned. *)
Theorem spiWriteRegByte_frame :
  forall (K : Kernel) (w : World) (spiFD regAdd data : Z),
    0 <= regAdd <= 255 -> 0 <= data <= 255 ->
    let x := {| tx_buf := [regAdd; data]; rx_buf := [0; 0]; len := 2;
                speed_hz := 10000; bits_per_word := 8 |} in
    spiWriteRegByte K spiFD regAdd data w =
      (0, w ++ [EvMessage spiFD x (fst (k_message K w spiFD x))])
    /\ (regAdd <= 127 -> Z.testbit (nth 0 (tx_buf x) 0) 7 = false).
Proof.
  intros K w fd regAdd data Hr Hd x.
  split.
  - rewrite spiWriteRegByte_eq. unfold descriptor.
    rewrite !(u8_id regAdd), (u8_id data) by lia. reflexivity.
  - intros Hlow. simpl. apply testbit7_low. lia.
Qed.

Lemma spiWriteRegByte_frame_witness :
  (0 <= 45 <= 255 /\ 0 <= 8 <= 255) /\
  spiWriteRegByte K_ok 3 45 8 [] =
    (0, [EvMessage 3 {| tx_buf := [45; 8]; rx_buf := [0; 0]; len := 2;
                        speed_hz := 10000; bits_per_word := 8 |} 0]).
Proof.
  assert (H1 : 0 <= 45 <= 255) by lia.
  assert (H2 : 0 <= 8 <= 255) by lia.
  split; [exact (conj H1 H2)|].
  exact (proj1 (spiWriteRegByte_frame K_ok [] 3 45 8 H1 H2)).
Defined.

(** [spiWriteBytes] always supplies a receive object of one byte. *)
Lemma spiWriteBytes_receive_object (K : Kernel) (w : World) (fd : Z)
  (data : buffer) (n : Z) :
  transfers (snd (spiWriteBytes K fd data n w)) =
    transfers w ++ [descriptor data [0] n].
Proof.
  rewrite spiWriteBytes_eq. cbn [snd].
  rewrite transfers_app. reflexivity.
Qed.

(** C3. The code at a transfer of two bytes: [spiWriteBytes] hands the
    system a descriptor of length 2 whose receive buffer is the one-byte
    object [null], shorter than the transfer. *)
Theorem spiWriteBytes_short_receive_buffer :
  transfers (snd (spiWriteBytes K_ok 3 [16; 32] 2 [])) =
    [ {| tx_buf := [16; 32]; rx_buf := [0]; len := 2;
         speed_hz := 10000; bits_per_word := 8 |} ]
  /\ forallb rx_covers
       (transfers (snd (spiWriteBytes K_ok 3 [16; 32] 2 []))) = false.
Proof. split; reflexivity. Qed.

(** ** Configuration *)

Lemma spiSetMode_eq (K : Kernel) (fd v : Z) (w : World) :
  let a := u8 v in
  let wr_rc := fst (k_ioctl K w fd SPI_IOC_WR_MODE a) in
  let w1 := w ++ [EvIoctl fd SPI_IOC_WR_MODE a wr_rc] in
  let rd_rc := fst (k_ioctl K w1 fd SPI_IOC_RD_MODE a) in
  spiSetMode K fd v w =
    if wr_rc =? -1 then (-1, w1)
    else (if rd_rc =? -1 then -1 else 0,
          w1 ++ [EvIoctl fd SPI_IOC_RD_MODE a rd_rc]).
Proof.
  cbv zeta. unfold spiSetMode, bind, sys_ioctl, ret. cbn [is_read].
  destruct (k_ioctl K w fd SPI_IOC_WR_MODE _) as [rc x]. cbn [fst snd].
  destruct (rc =? -1); [reflexivity|]. cbn beta.
  destruct (k_ioctl K _ fd SPI_IOC_RD_MODE _) as [rc' y]. cbn [fst snd].
  destruct (rc' =? -1); reflexivity.
Qed.

Lemma spiSetSpeed_eq (K : Kernel) (fd v : Z) (w : World) :
  let a := u32 v in
  let wr_rc := fst (k_ioctl K w fd SPI_IOC_WR_MAX_SPEED_HZ a) in
  let w1 := w ++ [EvIoctl fd SPI_IOC_WR_MAX_SPEED_HZ a wr_rc] in
  let rd_rc := fst (k_ioctl K w1 fd SPI_IOC_RD_MAX_SPEED_HZ a) in
  spiSetSpeed K fd v w =
    if wr_rc =? -1 then (-1, w1)
    else (if rd_rc =? -1 then -1 else 0,
          w1 ++ [EvIoctl fd SPI_IOC_RD_MAX_SPEED_HZ a rd_rc]).
Proof.
  cbv zeta. unfold spiSetSpeed, bind, sys_ioctl, ret. cbn [is_read].
  destruct (k_ioctl K w fd SPI_IOC_WR_MAX_SPEED_HZ _) as [rc x]. cbn [fst snd].
  destruct (rc =? -1); [reflexivity|]. cbn beta.
  destruct (k_ioctl K _ fd SPI_IOC_RD_MAX_SPEED_HZ _) as [rc' y]. cbn [fst snd].
  destruct (rc' =? -1); reflexivity.
Qed.

Lemma spiSetBitsPerWord_eq (K : Kernel) (fd v : Z) (w : World) :
  let a := u8 v in
  let wr_rc := fst (k_ioctl K w fd SPI_IOC_WR_BITS_PER_WORD a) in
  let w1 := w ++ [EvIoctl fd SPI_IOC_WR_BITS_PER_WORD a wr_rc] in
  let rd_rc := fst (k_ioctl K w1 fd SPI_IOC_RD_BITS_PER_WORD a) in
  spiSetBitsPerWord K fd v w =
    if wr_rc =? -1 then (-1, w1)
    else (if rd_rc =? -1 then -1 else 0,
          w1 ++ [EvIoctl fd SPI_IOC_RD_BITS_PER_WORD a rd_rc]).
Proof.
  cbv zeta. unfold spiSetBitsPerWord, bind, sys_ioctl, ret. cbn [is_read].
  destruct (k_ioctl K w fd SPI_IOC_WR_BITS_PER_WORD _) as [rc x]. cbn [fst snd].
  destruct (rc =? -1); [reflexivity|]. cbn beta.
  destruct (k_ioctl K _ fd SPI_IOC_RD_BITS_PER_WORD _) as [rc' y]. cbn [fst snd].
  destruct (rc' =? -1); reflexivity.
Qed.

(** A setter with the equation above meets the write-then-read-back
    contract. *)
Lemma write_readback_of_eq (K : Kernel) (setter : Z -> Z -> M Z)
  (wr rd : request) (conv : Z -> Z) :
  (forall w fd v,
      setter fd v w =
        if fst (k_ioctl K w fd wr (conv v)) =? -1
        then (-1, w ++ [EvIoctl fd wr (conv v)
                          (fst (k_ioctl K w fd wr (conv v)))])
        else (if fst (k_ioctl K
                        (w ++ [EvIoctl fd wr (conv v)
                                 (fst (k_ioctl K w fd wr (conv v)))])
                        fd rd (conv v)) =? -1
              then -1 else 0,
              (w ++ [EvIoctl fd wr (conv v)
                       (fst (k_ioctl K w fd wr (conv v)))])
              ++ [EvIoctl fd rd (conv v)
                    (fst (k_ioctl K
                            (w ++ [EvIoctl fd wr (conv v)
                                     (fst (k_ioctl K w fd wr (conv v)))])
                            fd rd (conv v)))])) ->
  write_readback K setter wr rd conv.
Proof.
  intros Heq w fd v a wr_rc w1 rd_rc back w2 r.
  assert (E : r = if wr_rc =? -1 then (-1, w1)
                  else (if rd_rc =? -1 then -1 else 0, w2))
    by (unfold r; rewrite Heq; reflexivity).
  clearbody r wr_rc rd_rc w1 w2 back. subst r.
  destruct (Z.eqb_spec wr_rc (-1)) as [Hw|Hw];
    destruct (Z.eqb_spec rd_rc (-1)) as [Hr|Hr]; cbn [fst];
    repeat split; intros; try reflexivity; try contradiction;
    try discriminate; try lia; auto;
    try (match goal with
         | H : _ \/ _ |- _ => destruct H as [?|[? ?]]; contradiction
         end).
Qed.

(** C8. Each of [spiSetMode], [spiSetSpeed] and [spiSetBitsPerWord]
    issues the write request with the requested value, then the read
    request on the same object; it returns -1 if and only if the write or
    the read-back returned -1, and 0 otherwise, whatever value was read
    back. *)
Theorem setters_write_then_read_back :
  forall K : Kernel,
    write_readback K (spiSetMode K) SPI_IOC_WR_MODE SPI_IOC_RD_MODE u8
    /\ write_readback K (spiSetSpeed K)
         SPI_IOC_WR_MAX_SPEED_HZ SPI_IOC_RD_MAX_SPEED_HZ u32
    /\ write_readback K (spiSetBitsPerWord K)
         SPI_IOC_WR_BITS_PER_WORD SPI_IOC_RD_BITS_PER_WORD u8.
Proof.
  intros K. split; [|split].
  - apply write_readback_of_eq. intros. apply spiSetMode_eq.
  - apply write_readback_of_eq. intros. apply spiSetSpeed_eq.
  - apply write_readback_of_eq. intros. apply spiSetBitsPerWord_eq.
Qed.

Lemma setters_write_then_read_back_witness :
  snd (k_ioctl K_mismatch
         [EvIoctl 3 SPI_IOC_WR_MODE 2 0] 3 SPI_IOC_RD_MODE 2) <> 2
  /\ fst (spiSetMode K_mismatch 3 2 []) = 0.
Proof.
  assert (Hw : fst (k_ioctl K_mismatch [] 3 SPI_IOC_WR_MODE (u8 2)) <> -1)
    by (vm_compute; discriminate).
  assert (Hr : fst (k_ioctl K_mismatch
                      ([] ++ [EvIoctl 3 SPI_IOC_WR_MODE (u8 2)
                                (fst (k_ioctl K_mismatch [] 3
                                        SPI_IOC_WR_MODE (u8 2)))])
                      3 SPI_IOC_RD_MODE (u8 2)) <> -1)
    by (vm_compute; discriminate).
  assert (Hb : snd (k_ioctl K_mismatch
                      ([] ++ [EvIoctl 3 SPI_IOC_WR_MODE (u8 2)
                                (fst (k_ioctl K_mismatch [] 3
                                        SPI_IOC_WR_MODE (u8 2)))])
                      3 SPI_IOC_RD_MODE (u8 2)) <> u8 2)
    by (vm_compute; discriminate).
  split; [exact Hb|].
  destruct (setters_write_then_read_back K_mismatch) as [Hm _].
  destruct (Hm [] 3 2) as [_ [_ [_ [_ H]]]].
  exact (H Hw Hr Hb).
Defined.

(** ** Opening a channel *)

Lemma spiSetMode_closes (K : Kernel) (fd v : Z) (w : World) :
  closes (snd (spiSetMode K fd v w)) = closes w.
Proof.
  rewrite spiSetMode_eq. kernel_cases;
    rewrite ?closes_app; simpl; rewrite ?app_nil_r; reflexivity.
Qed.

Lemma spiSetSpeed_closes (K : Kernel) (fd v : Z) (w : World) :
  closes (snd (spiSetSpeed K fd v w)) = closes w.
Proof.
  rewrite spiSetSpeed_eq. kernel_cases;
    rewrite ?closes_app; simpl; rewrite ?app_nil_r; reflexivity.
Qed.

Lemma spiSetBitsPerWord_closes (K : Kernel) (fd v : Z) (w : World) :
  closes (snd (spiSetBitsPerWord K fd v w)) = closes w.
Proof.
  rewrite spiSetBitsPerWord_eq. kernel_cases;
    rewrite ?closes_app; simpl; rewrite ?app_nil_r; reflexivity.
Qed.

(** [spiOpen] never calls [close], on any of its paths. *)
Lemma spiOpen_never_closes (K : Kernel) (bus device speed mode bpw : Z)
  (w : World) :
  closes (snd (spiOpen K bus device speed mode bpw w)) = closes w.
Proof.
  rewrite spiOpen_eq.
  set (path := spidev_path bus device).
  set (fd := k_open K w path O_RDWR).
  set (w1 := w ++ [EvOpen path O_RDWR fd]).
  assert (H1 : closes w1 = closes w).
  { unfold w1. rewrite closes_app. simpl. apply app_nil_r. }
  pose proof (spiSetMode_closes K fd mode w1) as Hm.
  pose proof (spiSetSpeed_closes K fd speed
                (snd (spiSetMode K fd mode w1))) as Hs.
  pose proof (spiSetBitsPerWord_closes K fd bpw
                (snd (spiSetSpeed K fd speed
                        (snd (spiSetMode K fd mode w1))))) as Hb.
  repeat match goal with
         | |- context [if ?c then _ else _] => destruct c
         end; simpl snd; congruence.
Qed.

(** C1. The code when the mode is rejected after the device node was
    opened as descriptor 3: [spiOpen] returns -1, so no handle reaches
    the caller, but it returns without calling [close]: descriptor 3
    stays open. *)
Theorem spiOpen_leaks_descriptor_on_config_failure :
  spiOpen K_mode_rejected 1 0 500000 0 8 [] =
    (-1, [EvOpen "/dev/spidev1.0" O_RDWR 3;
          EvIoctl 3 SPI_IOC_WR_MODE 0 (-1)])
  /\ closes (snd (spiOpen K_mode_rejected 1 0 500000 0 8 [])) = []
  /\ open_fds (snd (spiOpen K_mode_rejected 1 0 500000 0 8 [])) = [3].
Proof. repeat split. Qed.

(** C9, as stated, fails: a device node that cannot be opened and a mode
    rejected after a successful open are reported by the same value. *)
Lemma spiOpen_conflates_failures :
  spiOpen K_no_device 1 0 500000 0 8 [] =
    (-1, [EvOpen "/dev/spidev1.0" O_RDWR (-1)])
  /\ spiOpen K_mode_rejected 1 0 500000 0 8 [] =
       (-1, [EvOpen "/dev/spidev1.0" O_RDWR 3;
             EvIoctl 3 SPI_IOC_WR_MODE 0 (-1)])
  /\ fst (spiOpen K_no_device 1 0 500000 0 8 []) =
       fst (spiOpen K_mode_rejected 1 0 500000 0 8 []).
Proof. repeat split. Qed.

(** C9. If the device node cannot be opened, [spiOpen] returns -1 after
    the [open] call alone: no configuration request is issued.  If the
    node opens and one of the three setters returns -1, [spiOpen] returns
    -1 as well: the result is the same for both kinds of failure. *)
Theorem spiOpen_failure_result :
  forall (K : Kernel) (w : World) (bus device speed mode bpw : Z),
    let path := spidev_path bus device in
    let spiFD := k_open K w path O_RDWR in
    let w1 := w ++ [EvOpen path O_RDWR spiFD] in
    let m := spiSetMode K spiFD mode w1 in
    let s := spiSetSpeed K spiFD speed (snd m) in
    let b := spiSetBitsPerWord K spiFD bpw (snd s) in
    let r := spiOpen K bus device speed mode bpw w in
    (spiFD < 0 ->
       r = (-1, w1) /\ config_calls (snd r) = config_calls w)
    /\ (0 <= spiFD ->
        fst m = -1 \/ fst s = -1 \/ fst b = -1 ->
        fst r = -1).
Proof.
  intros K w bus device speed mode bpw path fd w1 m s b r.
  assert (E : r = if fd <? 0 then (-1, w1)
                  else if fst m =? -1 then (-1, snd m)
                  else if fst s =? -1 then (-1, snd s)
                  else if fst b =? -1 then (-1, snd b)
                  else (fd, snd b))
    by (unfold r; rewrite spiOpen_eq; reflexivity).
  clearbody r m s b. subst r.
  split.
  - intros Hneg.
    destruct (Z.ltb_spec fd 0) as [_|Hge]; [|lia].
    split; [reflexivity|].
    cbn [snd]. unfold w1. rewrite config_calls_app. simpl.
    apply app_nil_r.
  - intros Hpos Hfail.
    destruct (Z.ltb_spec fd 0) as [Hlt|_]; [lia|].
    destruct (Z.eqb_spec (fst m) (-1)) as [_|Hm]; [reflexivity|].
    destruct (Z.eqb_spec (fst s) (-1)) as [_|Hs]; [reflexivity|].
    destruct (Z.eqb_spec (fst b) (-1)) as [_|Hb]; [reflexivity|].
    destruct Hfail as [H|[H|H]]; contradiction.
Qed.

Lemma spiOpen_failure_result_witness :
  (k_open K_no_device [] (spidev_path 1 0) O_RDWR < 0
   /\ spiOpen K_no_device 1 0 500000 0 8 [] =
        (-1, [EvOpen "/dev/spidev1.0" O_RDWR (-1)])
   /\ config_calls (snd (spiOpen K_no_device 1 0 500000 0 8 [])) = [])
  /\ (0 <= k_open K_mode_rejected [] (spidev_path 1 0) O_RDWR
      /\ fst (spiSetMode K_mode_rejected 3 0
                [EvOpen "/dev/spidev1.0" O_RDWR 3]) = -1
      /\ fst (spiOpen K_mode_rejected 1 0 500000 0 8 []) = -1).
Proof.
  assert (H1 : k_open K_no_device [] (spidev_path 1 0) O_RDWR < 0)
    by (vm_compute; reflexivity).
  assert (H2 : 0 <= k_open K_mode_rejected [] (spidev_path 1 0) O_RDWR)
    by (vm_compute; discriminate).
  assert (H3 : fst (spiSetMode K_mode_rejected 3 0
                      [EvOpen "/dev/spidev1.0" O_RDWR 3]) = -1)
    by reflexivity.
  split.
  - split; [exact H1|].
    exact (proj1 (spiOpen_failure_result K_no_device [] 1 0 500000 0 8) H1).
  - split; [exact H2|]. split; [exact H3|].
    exact (proj2 (spiOpen_failure_result K_mode_rejected [] 1 0 500000 0 8)
             H2 (or_introl H3)).
Defined.

(** ** The device path *)

Lemma string_length_append (s t : string) :
  String.length (s ++ t) = (String.length s + String.length t)%nat.
Proof.
  induction s as [|c s IH]; simpl; [reflexivity|].
  rewrite IH. reflexivity.
Qed.

Lemma substring_whole (s : string) (n : nat) :
  (String.length s <= n)%nat -> substring 0 n s = s.
Proof.
  revert n. induction s as [|c s IH]; intros n H.
  - destruct n; reflexivity.
  - destruct n as [|n]; simpl in H; [lia|].
    simpl. rewrite IH by lia. reflexivity.
Qed.

(** A value of type [uint8_t] prints as one to three digits. *)
Lemma fmt_d_byte_length (x : Z) :
  0 <= x <= 255 -> (String.length (fmt_d x) <= 3)%nat.
Proof.
  intros H.
  apply Nat.leb_le.
  apply (below_by_cases (fun x => (String.length (fmt_d x) <=? 3)%nat) 256);
    [ vm_compute; reflexivity | simpl; lia ].
Qed.

(** C10. For a bus and a device number that fit 8 bits, the path that
    [snprintf] stores in the 50-byte buffer [fsBuf] is the whole text
    [/dev/spidev{bus}.{device}]: the text and its terminator take at most
    19 bytes, as for [/dev/spidev255.255], which is below the capacity;
    this is the path [spiOpen] passes to [open]. *)
Theorem spidev_path_not_truncated :
  forall (bus device : Z),
    0 <= bus <= 255 -> 0 <= device <= 255 ->
    spidev_path bus device =
      ("/dev/spidev" ++ fmt_d bus ++ "." ++ fmt_d device)%string
    /\ (String.length (spidev_text bus device) + 1 <= 19)%nat
    /\ (String.length (spidev_text 255 255) + 1 = 19)%nat
    /\ (19 < MAX_PATH)%nat
    /\ (forall K w speed mode bpw,
           exists rest,
             snd (spiOpen K bus device speed mode bpw w) =
               w ++ EvOpen (spidev_text bus device) O_RDWR
                      (k_open K w (spidev_text bus device) O_RDWR) :: rest).
Proof.
  intros bus device Hb Hd.
  assert (L : (String.length (spidev_text bus device) + 1 <= 19)%nat).
  { unfold spidev_text.
    rewrite !string_length_append.
    pose proof (fmt_d_byte_length bus Hb).
    pose proof (fmt_d_byte_length device Hd).
    simpl String.length. lia. }
  assert (P : spidev_path bus device = spidev_text bus device).
  { unfold spidev_path, snprintf.
    rewrite (u8_id bus), (u8_id device) by lia.
    apply substring_whole. unfold MAX_PATH. lia. }
  split; [exact P|].
  split; [exact L|].
  split; [reflexivity|].
  split; [unfold MAX_PATH; lia|].
  intros K w speed mode bpw.
  rewrite spiOpen_eq. cbv zeta. rewrite P.
  set (path := spidev_text bus device).
  set (fd := k_open K w path O_RDWR).
  set (w1 := w ++ [EvOpen path O_RDWR fd]).
  assert (Hm : exists l, snd (spiSetMode K fd mode w1) = w1 ++ l).
  { rewrite spiSetMode_eq. kernel_cases;
      rewrite <- ?app_assoc; eexists; reflexivity. }
  destruct Hm as [lm Hm].
  assert (Hs : exists l, snd (spiSetSpeed K fd speed
                                (snd (spiSetMode K fd mode w1))) = w1 ++ l).
  { rewrite spiSetSpeed_eq, Hm. kernel_cases;
      rewrite <- ?app_assoc; eexists; reflexivity. }
  destruct Hs as [ls Hs].
  assert (Hw : exists l,
             snd (spiSetBitsPerWord K fd bpw
                    (snd (spiSetSpeed K fd speed
                            (snd (spiSetMode K fd mode w1))))) = w1 ++ l).
  { rewrite spiSetBitsPerWord_eq, Hs. kernel_cases;
      rewrite <- ?app_assoc; eexists; reflexivity. }
  destruct Hw as [lw Hw].
  assert (A : forall l, w1 ++ l = w ++ EvOpen path O_RDWR fd :: l).
  { intros l. unfold w1. rewrite <- app_assoc. reflexivity. }
  repeat match goal with
         | |- context [if ?c then _ else _] => destruct c
         end; cbn [snd].
  - exists []. rewrite <- A. symmetry. apply app_nil_r.
  - exists lm. rewrite Hm. apply A.
  - exists ls. rewrite Hs. apply A.
  - exists lw. rewrite Hw. apply A.
  - exists lw. rewrite Hw. apply A.
Qed.

Lemma spidev_path_not_truncated_witness :
  (0 <= 255 <= 255) /\
  spidev_path 255 255 = "/dev/spidev255.255"%string.
Proof.
  assert (H : 0 <= 255 <= 255) by lia.
  split; [exact H|].
  exact (proj1 (spidev_path_not_truncated 255 255 H H)).
Defined.

(** ** Further properties of the functions of [spi.c] *)

Lemma config_log_app (w1 w2 : World) :
  config_log (w1 ++ w2) = config_log w1 ++ config_log w2.
Proof. apply flat_map_app. Qed.

Lemma open_fds_from_app (acc : list Z) (w1 w2 : World) :
  open_fds_from acc (w1 ++ w2) = open_fds_from (open_fds_from acc w1) w2.
Proof.
  revert acc. induction w1 as [|e w1 IH]; intros acc; [reflexivity|].
  destruct e; simpl; apply IH.
Qed.

Lemma open_fds_from_config (acc : list Z) (l : World) :
  forallb is_config l = true -> open_fds_from acc l = acc.
Proof.
  revert acc. induction l as [|e l IH]; intros acc H; [reflexivity|].
  simpl in H. apply andb_true_iff in H. destruct H as [He Hl].
  destruct e; try discriminate He. simpl. apply IH. exact Hl.
Qed.

Lemma closes_config (l : World) : forallb is_config l = true -> closes l = [].
Proof.
  induction l as [|e l IH]; intros H; [reflexivity|].
  simpl in H. apply andb_true_iff in H. destruct H as [He Hl].
  destruct e; try discriminate He. simpl. apply IH. exact Hl.
Qed.

Lemma transfers_config (l : World) :
  forallb is_config l = true -> transfers l = [].
Proof.
  induction l as [|e l IH]; intros H; [reflexivity|].
  simpl in H. apply andb_true_iff in H. destruct H as [He Hl].
  destruct e; try discriminate He. simpl. apply IH. exact Hl.
Qed.

(** What a setter leaves behind: its write request and, unless that
    failed, its read request, on the descriptor it was given. *)
Lemma spiSetMode_shape (K : Kernel) (fd v : Z) (w : World) :
  exists l,
    snd (spiSetMode K fd v w) = w ++ l /\ forallb is_config l = true /\
    ((fst (spiSetMode K fd v w) = -1 /\
      (config_log l = [(fd, SPI_IOC_WR_MODE, u8 v)] \/
       config_log l = [(fd, SPI_IOC_WR_MODE, u8 v);
                       (fd, SPI_IOC_RD_MODE, u8 v)]))
     \/ (fst (spiSetMode K fd v w) = 0 /\
         config_log l = [(fd, SPI_IOC_WR_MODE, u8 v);
                         (fd, SPI_IOC_RD_MODE, u8 v)])).
Proof.
  rewrite spiSetMode_eq. cbv zeta.
  destruct (_ =? -1); [|destruct (_ =? -1)]; cbn [fst snd];
    rewrite <- ?app_assoc; eexists; (split; [reflexivity|]);
    (split; [reflexivity|]); simpl; auto.
Qed.

Lemma spiSetSpeed_shape (K : Kernel) (fd v : Z) (w : World) :
  exists l,
    snd (spiSetSpeed K fd v w) = w ++ l /\ forallb is_config l = true /\
    ((fst (spiSetSpeed K fd v w) = -1 /\
      (config_log l = [(fd, SPI_IOC_WR_MAX_SPEED_HZ, u32 v)] \/
       config_log l = [(fd, SPI_IOC_WR_MAX_SPEED_HZ, u32 v);
                       (fd, SPI_IOC_RD_MAX_SPEED_HZ, u32 v)]))
     \/ (fst (spiSetSpeed K fd v w) = 0 /\
         config_log l = [(fd, SPI_IOC_WR_MAX_SPEED_HZ, u32 v);
                         (fd, SPI_IOC_RD_MAX_SPEED_HZ, u32 v)])).
Proof.
  rewrite spiSetSpeed_eq. cbv zeta.
  destruct (_ =? -1); [|destruct (_ =? -1)]; cbn [fst snd];
    rewrite <- ?app_assoc; eexists; (split; [reflexivity|]);
    (split; [reflexivity|]); simpl; auto.
Qed.

Lemma spiSetBitsPerWord_shape (K : Kernel) (fd v : Z) (w : World) :
  exists l,
    snd (spiSetBitsPerWord K fd v w) = w ++ l /\ forallb is_config l = true /\
    ((fst (spiSetBitsPerWord K fd v w) = -1 /\
      (config_log l = [(fd, SPI_IOC_WR_BITS_PER_WORD, u8 v)] \/
       config_log l = [(fd, SPI_IOC_WR_BITS_PER_WORD, u8 v);
                       (fd, SPI_IOC_RD_BITS_PER_WORD, u8 v)]))
     \/ (fst (spiSetBitsPerWord K fd v w) = 0 /\
         config_log l = [(fd, SPI_IOC_WR_BITS_PER_WORD, u8 v);
                         (fd, SPI_IOC_RD_BITS_PER_WORD, u8 v)])).
Proof.
  rewrite spiSetBitsPerWord_eq. cbv zeta.
  destruct (_ =? -1); [|destruct (_ =? -1)]; cbn [fst snd];
    rewrite <- ?app_assoc; eexists; (split; [reflexivity|]);
    (split; [reflexivity|]); simpl; auto.
Qed.

(** What [spiOpen] leaves behind: the [open] call, followed by an initial
    part of the six configuration requests; all six when it succeeds. *)
Lemma spiOpen_shape (K : Kernel) (w : World) (bus device speed mode bpw : Z) :
  let path := spidev_path bus device in
  let fd := k_open K w path O_RDWR in
  let r := spiOpen K bus device speed mode bpw w in
  exists l k,
    snd r = w ++ EvOpen path O_RDWR fd :: l
    /\ forallb is_config l = true
    /\ config_log l = firstn k (open_requests fd mode speed bpw)
    /\ (fst r = -1 \/ (fst r = fd /\ 0 <= fd /\ k = 6%nat))
    /\ (fd < 0 -> l = []).
Proof.
  intros path fd r. unfold r. rewrite spiOpen_eq. fold path. fold fd.
  set (w1 := w ++ [EvOpen path O_RDWR fd]).
  assert (A : forall l, w1 ++ l = w ++ EvOpen path O_RDWR fd :: l).
  { intros l. unfold w1. rewrite <- app_assoc. reflexivity. }
  destruct (Z.ltb_spec fd 0) as [Hneg|Hpos].
  { exists [], 0%nat. cbn [fst snd].
    repeat split; auto. }
  destruct (spiSetMode_shape K fd mode w1) as [lm [Em [Cm Rm]]].
  destruct (Z.eqb_spec (fst (spiSetMode K fd mode w1)) (-1)) as [Hm|Hm].
  { destruct Rm as [[_ [L|L]]|[R _]]; [| |congruence].
    - exists lm, 1%nat. cbn [fst snd]. rewrite Em, A.
      repeat split; auto; intros; lia.
    - exists lm, 2%nat. cbn [fst snd]. rewrite Em, A.
      repeat split; auto; intros; lia. }
  destruct Rm as [[R _]|[_ Lm]]; [congruence|].
  rewrite Em.
  destruct (spiSetSpeed_shape K fd speed (w1 ++ lm)) as [ls [Es [Cs Rs]]].
  destruct (Z.eqb_spec (fst (spiSetSpeed K fd speed (w1 ++ lm))) (-1))
    as [Hs|Hs].
  { destruct Rs as [[_ [L|L]]|[R _]]; [| |congruence].
    - exists (lm ++ ls), 3%nat. cbn [fst snd].
      rewrite Es, <- app_assoc, A, forallb_app, config_log_app, Cm, Cs, Lm, L.
      repeat split; auto; intros; lia.
    - exists (lm ++ ls), 4%nat. cbn [fst snd].
      rewrite Es, <- app_assoc, A, forallb_app, config_log_app, Cm, Cs, Lm, L.
      repeat split; auto; intros; lia. }
  destruct Rs as [[R _]|[_ Ls]]; [congruence|].
  rewrite Es.
  destruct (spiSetBitsPerWord_shape K fd bpw ((w1 ++ lm) ++ ls))
    as [lb [Eb [Cb Rb]]].
  assert (W : ((w1 ++ lm) ++ ls) ++ lb =
              w ++ EvOpen path O_RDWR fd :: (lm ++ ls) ++ lb).
  { rewrite <- A, <- !app_assoc. reflexivity. }
  destruct (Z.eqb_spec
              (fst (spiSetBitsPerWord K fd bpw ((w1 ++ lm) ++ ls))) (-1))
    as [Hb|Hb].
  { destruct Rb as [[_ [L|L]]|[R _]]; [| |congruence].
    - exists ((lm ++ ls) ++ lb), 5%nat. cbn [fst snd].
      rewrite Eb, W, !forallb_app, !config_log_app, Cm, Cs, Cb, Lm, Ls, L.
      repeat split; auto; intros; lia.
    - exists ((lm ++ ls) ++ lb), 6%nat. cbn [fst snd].
      rewrite Eb, W, !forallb_app, !config_log_app, Cm, Cs, Cb, Lm, Ls, L.
      repeat split; auto; intros; lia. }
  destruct Rb as [[R _]|[_ Lb]]; [congruence|].
  exists ((lm ++ ls) ++ lb), 6%nat. cbn [fst snd].
  rewrite Eb, W, !forallb_app, !config_log_app, Cm, Cs, Cb, Lm, Ls, Lb.
  repeat split; auto; intros; lia.
Qed.

Lemma open_fds_app_config (w l : World) :
  forallb is_config l = true -> open_fds (w ++ l) = open_fds w.
Proof.
  intros H. unfold open_fds. rewrite open_fds_from_app.
  apply open_fds_from_config. exact H.
Qed.

Lemma open_fds_app_message (w : World) (fd : Z) (x : spi_ioc_transfer) (rc : Z) :
  open_fds (w ++ [EvMessage fd x rc]) = open_fds w.
Proof. unfold open_fds. rewrite open_fds_from_app. reflexivity. Qed.

Lemma transfers_message (w : World) (fd : Z) (x : spi_ioc_transfer) (rc : Z) :
  transfers (w ++ [EvMessage fd x rc]) = transfers w ++ [x].
Proof. rewrite transfers_app. reflexivity. Qed.

Lemma fill_nothing (b : buffer) : fill b [] = b.
Proof. unfold fill. simpl. apply firstn_all. Qed.

(** X1. [spiTransfer] makes exactly one system call, the transfer
    request; it returns -1 exactly when that call returned a negative
    value and 0 for every other value (also a positive byte count), and
    the receive buffer keeps its size. *)
Theorem spiTransfer_result :
  forall (K : Kernel) (w : World) (spiFD : Z) (tx rx : buffer) (n : Z),
    let rc := fst (k_message K w spiFD (descriptor tx rx n)) in
    let r := spiTransfer K spiFD tx rx n w in
    (fst (fst r) = -1 <-> rc < 0)
    /\ (fst (fst r) = 0 <-> 0 <= rc)
    /\ List.length (snd (fst r)) = List.length rx
    /\ snd r = w ++ [EvMessage spiFD (descriptor tx rx n) rc].
Proof.
  intros K w fd tx rx n rc r.
  unfold r. rewrite spiTransfer_eq. cbn [fst snd]. fold (descriptor tx rx n).
  fold rc.
  split; [|split; [|split]].
  - destruct (Z.ltb_spec rc 0); split; intros; try reflexivity; try lia;
      discriminate.
  - destruct (Z.ltb_spec rc 0); split; intros; try reflexivity; try lia;
      discriminate.
  - apply length_fill.
  - reflexivity.
Qed.

(** X2. The result of [spiOpen] is either -1 or the descriptor returned
    by [open], which is then non-negative: a caller may test the result
    with [< 0] or with [== -1] alike. *)
Theorem spiOpen_result :
  forall (K : Kernel) (w : World) (bus device speed mode bpw : Z),
    let spiFD := k_open K w (spidev_path bus device) O_RDWR in
    let r := spiOpen K bus device speed mode bpw w in
    (fst r = -1 \/ (fst r = spiFD /\ 0 <= spiFD))
    /\ (fst r < 0 <-> fst r = -1).
Proof.
  intros K w bus device speed mode bpw fd r.
  destruct (spiOpen_shape K w bus device speed mode bpw)
    as [l [k [_ [_ [_ [R _]]]]]].
  fold fd in R. fold r in R.
  split.
  - destruct R as [R|[R [P _]]]; auto.
  - destruct R as [R|[R [P _]]]; lia.
Qed.

(** X3. [spiOpen] issues its configuration requests on the descriptor
    returned by [open] in the order mode, speed, bits per word, each
    written and then read back, with the values converted to the
    parameter types: what it issues is always an initial part of that
    sequence, and the whole sequence when it does not return -1. *)
Theorem spiOpen_configuration_order :
  forall (K : Kernel) (w : World) (bus device speed mode bpw : Z),
    let spiFD := k_open K w (spidev_path bus device) O_RDWR in
    let r := spiOpen K bus device speed mode bpw w in
    (exists k, config_log (snd r) =
                 config_log w ++ firstn k (open_requests spiFD mode speed bpw))
    /\ (fst r <> -1 ->
        config_log (snd r) =
          config_log w ++ open_requests spiFD mode speed bpw).
Proof.
  intros K w bus device speed mode bpw fd r.
  destruct (spiOpen_shape K w bus device speed mode bpw)
    as [l [k [E [_ [L [R _]]]]]].
  fold fd in E, L, R. fold r in E, R.
  assert (C : config_log (snd r) =
                config_log w ++ firstn k (open_requests fd mode speed bpw)).
  { rewrite E, config_log_app. simpl. rewrite L. reflexivity. }
  split.
  - exists k. exact C.
  - intros Hr. destruct R as [R|[_ [_ Hk]]]; [contradiction|].
    rewrite C, Hk. reflexivity.
Qed.

Lemma spiOpen_configuration_order_witness :
  fst (spiOpen K_ok 1 0 500000 3 8 []) <> -1
  /\ config_log (snd (spiOpen K_ok 1 0 500000 3 8 [])) =
       [ (3, SPI_IOC_WR_MODE, 3); (3, SPI_IOC_RD_MODE, 3);
         (3, SPI_IOC_WR_MAX_SPEED_HZ, 500000);
         (3, SPI_IOC_RD_MAX_SPEED_HZ, 500000);
         (3, SPI_IOC_WR_BITS_PER_WORD, 8);
         (3, SPI_IOC_RD_BITS_PER_WORD, 8) ].
Proof.
  assert (H : fst (spiOpen K_ok 1 0 500000 3 8 []) <> -1)
    by (vm_compute; discriminate).
  split; [exact H|].
  exact (proj2 (spiOpen_configuration_order K_ok [] 1 0 500000 3 8) H).
Defined.

(** X4. [spiOpen] never calls [close]: whenever [open] returned a
    descriptor, that descriptor is open when [spiOpen] returns, also when
    it returns -1 because a configuration step failed. *)
Theorem spiOpen_keeps_descriptor_open :
  forall (K : Kernel) (w : World) (bus device speed mode bpw : Z),
    let spiFD := k_open K w (spidev_path bus device) O_RDWR in
    let r := spiOpen K bus device speed mode bpw w in
    0 <= spiFD ->
    open_fds (snd r) = spiFD :: open_fds w
    /\ closes (snd r) = closes w
    /\ (fst r = -1 -> In spiFD (open_fds (snd r))).
Proof.
  intros K w bus device speed mode bpw fd r Hfd.
  destruct (spiOpen_shape K w bus device speed mode bpw)
    as [l [k [E [C _]]]].
  fold fd in E. fold r in E.
  assert (O : open_fds (snd r) = fd :: open_fds w).
  { rewrite E. unfold open_fds. rewrite open_fds_from_app. simpl.
    destruct (Z.leb_spec 0 fd); [|lia].
    apply open_fds_from_config. exact C. }
  split; [exact O|]. split.
  - rewrite E, closes_app. simpl. rewrite (closes_config l C).
    apply app_nil_r.
  - intros _. rewrite O. left. reflexivity.
Qed.

Lemma spiOpen_keeps_descriptor_open_witness :
  0 <= k_open K_mode_rejected [] (spidev_path 1 0) O_RDWR
  /\ fst (spiOpen K_mode_rejected 1 0 500000 0 8 []) = -1
  /\ In 3 (open_fds (snd (spiOpen K_mode_rejected 1 0 500000 0 8 []))).
Proof.
  assert (H : 0 <= k_open K_mode_rejected [] (spidev_path 1 0) O_RDWR)
    by (vm_compute; discriminate).
  assert (F : fst (spiOpen K_mode_rejected 1 0 500000 0 8 []) = -1)
    by reflexivity.
  split; [exact H|]. split; [exact F|].
  exact (proj2 (proj2 (spiOpen_keeps_descriptor_open
                         K_mode_rejected [] 1 0 500000 0 8 H)) F).
Defined.

(** X5. Opening and closing: when [spiOpen] succeeds with a descriptor
    that was not open before and the [close] of [spiClose] succeeds, the
    set of open descriptors is the same as before [spiOpen], and
    [spiClose] made exactly one [close] call, on that descriptor. *)
Theorem spiOpen_spiClose_round_trip :
  forall (K : Kernel) (w : World) (bus device speed mode bpw : Z),
    let r := spiOpen K bus device speed mode bpw w in
    let c := spiClose K (fst r) (snd r) in
    fst r <> -1 ->
    ~ In (fst r) (open_fds w) ->
    k_close K (snd r) (fst r) = 0 ->
    open_fds (snd c) = open_fds w
    /\ closes (snd c) = closes w ++ [fst r].
Proof.
  intros K w bus device speed mode bpw r c Hr Hnew Hc.
  destruct (spiOpen_shape K w bus device speed mode bpw)
    as [l [k [E [C [_ [R _]]]]]].
  fold r in E, R.
  destruct R as [R|[R [P _]]]; [contradiction|].
  rewrite <- R in E, P.
  assert (O : open_fds (snd r) = fst r :: open_fds w).
  { rewrite E. unfold open_fds. rewrite open_fds_from_app. simpl.
    destruct (Z.leb_spec 0 (fst r)); [|lia].
    apply open_fds_from_config. exact C. }
  assert (Cl : closes (snd r) = closes w).
  { rewrite E, closes_app. simpl. rewrite (closes_config l C).
    apply app_nil_r. }
  unfold c, spiClose, bind, sys_close, ret. cbn [snd].
  rewrite Hc. split.
  - unfold open_fds. rewrite open_fds_from_app. fold (open_fds (snd r)).
    rewrite O. simpl.
    destruct (Z.eq_dec (fst r) (fst r)) as [_|N]; [|contradiction].
    apply notin_remove. exact Hnew.
  - rewrite closes_app, Cl. reflexivity.
Qed.

Lemma spiOpen_spiClose_round_trip_witness :
  (fst (spiOpen K_ok 1 0 500000 0 8 []) <> -1
   /\ ~ In (fst (spiOpen K_ok 1 0 500000 0 8 [])) (open_fds [])
   /\ k_close K_ok (snd (spiOpen K_ok 1 0 500000 0 8 []))
        (fst (spiOpen K_ok 1 0 500000 0 8 [])) = 0)
  /\ open_fds (snd (spiOpen K_ok 1 0 500000 0 8 [])) = [3]
  /\ open_fds (snd (spiClose K_ok 3 (snd (spiOpen K_ok 1 0 500000 0 8 []))))
     = [].
Proof.
  assert (H1 : fst (spiOpen K_ok 1 0 500000 0 8 []) <> -1)
    by (vm_compute; discriminate).
  assert (H2 : ~ In (fst (spiOpen K_ok 1 0 500000 0 8 [])) (open_fds []))
    by (simpl; tauto).
  assert (H3 : k_close K_ok (snd (spiOpen K_ok 1 0 500000 0 8 []))
                 (fst (spiOpen K_ok 1 0 500000 0 8 [])) = 0)
    by reflexivity.
  split; [exact (conj H1 (conj H2 H3))|].
  split; [reflexivity|].
  exact (proj1 (spiOpen_spiClose_round_trip K_ok [] 1 0 500000 0 8 H1 H2 H3)).
Defined.

(** X6. The write functions hide a failed transfer: when every transfer
    request fails, so that [spiTransfer] returns -1, [spiWriteRegByte]
    and [spiWriteBytes] still return 0; [spiWriteBytes] hands [data] and
    [len] to the transfer unchanged. *)
Theorem writes_hide_transfer_failure :
  forall (K : Kernel) (w : World) (spiFD regAdd data : Z)
         (buf : buffer) (n : Z),
    (forall x, fst (k_message K w spiFD x) < 0) ->
    fst (fst (spiTransfer K spiFD buf [0] n w)) = -1
    /\ fst (spiWriteBytes K spiFD buf n w) = 0
    /\ fst (spiWriteRegByte K spiFD regAdd data w) = 0
    /\ transfers (snd (spiWriteBytes K spiFD buf n w)) =
         transfers w ++ [descriptor buf [0] n].
Proof.
  intros K w fd regAdd data buf n Hfail.
  rewrite spiTransfer_eq, spiWriteBytes_eq, spiWriteRegByte_eq.
  cbn [fst snd].
  split; [|split; [|split]]; try reflexivity.
  - specialize (Hfail (descriptor buf [0] n)). unfold descriptor in Hfail.
    destruct (Z.ltb_spec
                (fst (k_message K w fd
                        {| tx_buf := buf; rx_buf := [0]; len := n;
                           speed_hz := 10000; bits_per_word := 8 |})) 0);
      [reflexivity | lia].
  - rewrite transfers_app. reflexivity.
Qed.

Lemma writes_hide_transfer_failure_witness :
  (forall x, fst (k_message K_transfer_fails [] 3 x) < 0)
  /\ fst (fst (spiTransfer K_transfer_fails 3 [16; 32] [0] 2 [])) = -1
  /\ fst (spiWriteBytes K_transfer_fails 3 [16; 32] 2 []) = 0
  /\ fst (spiWriteRegByte K_transfer_fails 3 45 8 []) = 0.
Proof.
  assert (H : forall x, fst (k_message K_transfer_fails [] 3 x) < 0)
    by (intros x; vm_compute; reflexivity).
  pose proof (writes_hide_transfer_failure K_transfer_fails [] 3 45 8
                [16; 32] 2 H) as [A [B [C _]]].
  split; [exact H|]. split; [exact A|]. split; [exact B | exact C].
Defined.

(** X7. [spiReadByte] cannot address a register above 127: it always
    sets bit 7 of the command byte, so the addresses [a] and [a + 128]
    give the same transfer and the same result. *)
Theorem spiReadByte_high_address_alias :
  forall (K : Kernel) (w : World) (spiFD a : Z),
    0 <= a <= 127 ->
    spiReadByte K spiFD (a + 128) w = spiReadByte K spiFD a w
    /\ map tx_buf (transfers (snd (spiReadByte K spiFD a w))) =
         map tx_buf (transfers w) ++ [[a + 128; 0]].
Proof.
  intros K w fd a Ha.
  assert (E : u8 (Z.lor 128 (u8 (a + 128))) = u8 (Z.lor 128 (u8 a))).
  { apply Z.eqb_eq.
    apply (below_by_cases
             (fun a => u8 (Z.lor 128 (u8 (a + 128))) =? u8 (Z.lor 128 (u8 a)))
             128); [ vm_compute; reflexivity | simpl; lia ]. }
  assert (F : u8 (Z.lor 128 (u8 a)) = a + 128).
  { apply Z.eqb_eq.
    apply (below_by_cases (fun a => u8 (Z.lor 128 (u8 a)) =? a + 128) 128);
      [ vm_compute; reflexivity | simpl; lia ]. }
  rewrite !spiReadByte_eq. cbv zeta. rewrite E. split; [reflexivity|].
  cbn [snd]. rewrite transfers_message, map_app.
  unfold descriptor. cbn [map tx_buf]. rewrite F.
  reflexivity.
Qed.

Lemma spiReadByte_high_address_alias_witness :
  0 <= 5 <= 127 /\
  spiReadByte K_pattern 3 133 [] = spiReadByte K_pattern 3 5 [].
Proof.
  assert (H : 0 <= 5 <= 127) by lia.
  split; [exact H|].
  exact (proj1 (spiReadByte_high_address_alias K_pattern [] 3 5 H)).
Defined.

(** X8. A single-byte read of a register address with bit 6 set puts the
    burst-read command on the bus: for [a] in [0,63], [spiReadByte] at
    [a + 64] transmits the very frame that [spiReadBytes] transmits for
    one byte from [a], in a transfer of the same length. *)
Theorem spiReadByte_bit6_is_burst_command :
  forall (K : Kernel) (w : World) (spiFD a : Z),
    0 <= a <= 63 ->
    let single := transfers (snd (spiReadByte K spiFD (a + 64) w)) in
    let burst := transfers (snd (spiReadBytes K spiFD 1 a w)) in
    map tx_buf single = map tx_buf (transfers w) ++ [[Z.lor 192 a; 0]]
    /\ map tx_buf single = map tx_buf burst
    /\ map len single = map len burst.
Proof.
  intros K w fd a Ha single burst.
  assert (E : u8 (Z.lor 128 (u8 (a + 64))) = Z.lor 192 a).
  { apply Z.eqb_eq.
    apply (below_by_cases
             (fun a => u8 (Z.lor 128 (u8 (a + 64))) =? Z.lor 192 a) 64);
      [ vm_compute; reflexivity | simpl; lia ]. }
  unfold single, burst.
  rewrite spiReadByte_eq, spiReadBytes_eq. cbv zeta. cbn [snd].
  rewrite !transfers_message, !map_app.
  change (Z.to_nat (sint (1 + 1))) with 2%nat.
  change (sint (1 + 1)) with 2.
  rewrite upd_zeroed_head.
  unfold descriptor. cbn [map tx_buf len repeat].
  rewrite E, (lor_burst_flag a Ha).
  repeat split.
Qed.

Lemma spiReadByte_bit6_is_burst_command_witness :
  0 <= 5 <= 63 /\
  map tx_buf (transfers (snd (spiReadByte K_ok 3 69 []))) = [[197; 0]]
  /\ map tx_buf (transfers (snd (spiReadBytes K_ok 3 1 5 []))) = [[197; 0]].
Proof.
  assert (H : 0 <= 5 <= 63) by lia.
  pose proof (spiReadByte_bit6_is_burst_command K_ok [] 3 5 H) as [A [B _]].
  split; [exact H|]. split; [exact A|].
  rewrite <- B. exact A.
Defined.

(** X9. A read of length 0: [spiReadBytes] still makes a transfer, of
    one byte carrying the command, and returns an empty buffer. *)
Theorem spiReadBytes_zero_length :
  forall (K : Kernel) (w : World) (spiFD a : Z),
    0 <= a <= 63 ->
    let rx0 := fst (auto_array K 1 w) in
    let x := descriptor [Z.lor 192 a] rx0 1 in
    spiReadBytes K spiFD 0 a w =
      ([], w ++ [EvMessage spiFD x (fst (k_message K w spiFD x))]).
Proof.
  intros K w fd a Ha rx0 x.
  rewrite spiReadBytes_eq. cbv zeta.
  change (Z.to_nat (sint (0 + 1))) with 1%nat.
  change (sint (0 + 1)) with 1.
  rewrite upd_zeroed_head, (lor_burst_flag a Ha).
  reflexivity.
Qed.

Lemma spiReadBytes_zero_length_witness :
  0 <= 5 <= 63 /\
  spiReadBytes K_pattern 3 0 5 [] =
    ([], [EvMessage 3 (descriptor [197] [204] 1) 0]).
Proof.
  assert (H : 0 <= 5 <= 63) by lia.
  split; [exact H|].
  exact (spiReadBytes_zero_length K_pattern [] 3 5 H).
Defined.

(** X10. When the system stores nothing into the receive buffer (as
    after a failed transfer), [spiReadByte] returns 0, because its
    receive buffer was zeroed, while [spiReadBytes], whose receive array
    is never assigned, returns what that array happened to hold at
    offsets 1..len. *)
Theorem reads_when_nothing_is_received :
  forall (K : Kernel) (w : World) (spiFD regAdd n startAdd : Z),
    0 <= n < INT_MAX ->
    (forall x, snd (k_message K w spiFD x) = []) ->
    fst (spiReadByte K spiFD regAdd w) = 0
    /\ fst (spiReadBytes K spiFD n startAdd w) =
         firstn (Z.to_nat n)
           (skipn 1 (fst (auto_array K (Z.to_nat (n + 1)) w))).
Proof.
  intros K w fd regAdd n startAdd Hn Hnone.
  assert (Hi : sint (n + 1) = n + 1)
    by (apply sint_id; unfold INT_MAX in *; lia).
  rewrite spiReadByte_eq, spiReadBytes_eq. cbv zeta. cbn [fst].
  rewrite !Hnone, Hi. simpl map. rewrite !fill_nothing.
  split; reflexivity.
Qed.

Lemma reads_when_nothing_is_received_witness :
  (0 <= 3 < INT_MAX
   /\ forall x, snd (k_message K_transfer_fails [] 3 x) = [])
  /\ fst (spiReadByte K_transfer_fails 3 5 []) = 0
  /\ fst (spiReadBytes K_transfer_fails 3 3 5 []) = [204; 204; 204].
Proof.
  assert (H1 : 0 <= 3 < INT_MAX) by (unfold INT_MAX; lia).
  assert (H2 : forall x, snd (k_message K_transfer_fails [] 3 x) = [])
    by (intros x; reflexivity).
  split; [exact (conj H1 H2)|].
  exact (reads_when_nothing_is_received K_transfer_fails [] 3 5 3 5 H1 H2).
Defined.

Lemma spidev_path_text (bus device : Z) :
  0 <= bus <= 255 -> 0 <= device <= 255 ->
  spidev_path bus device = spidev_text bus device.
Proof.
  intros Hb Hd. unfold spidev_path, snprintf.
  rewrite (u8_id bus), (u8_id device) by lia.
  apply substring_whole.
  unfold spidev_text. rewrite !string_length_append.
  pose proof (fmt_d_byte_length bus Hb).
  pose proof (fmt_d_byte_length device Hd).
  simpl String.length. unfold MAX_PATH. lia.
Qed.

Lemma split_at_append (c : ascii) (s t : string) :
  occurs c s = false -> split_at c (s ++ String c t) = (s, t).
Proof.
  induction s as [|a s IH]; simpl; intros H.
  - rewrite Ascii.eqb_refl. reflexivity.
  - apply orb_false_iff in H. destruct H as [Ha Hs].
    rewrite Ha, (IH Hs). reflexivity.
Qed.

Lemma fmt_d_byte_no_dot (x : Z) :
  0 <= x <= 255 -> occurs "." (fmt_d x) = false.
Proof.
  intros H. apply negb_true_iff.
  apply (below_by_cases (fun x => negb (occurs "." (fmt_d x))) 256);
    [ vm_compute; reflexivity | simpl; lia ].
Qed.

Lemma fmt_d_byte_inj (x y : Z) :
  0 <= x <= 255 -> 0 <= y <= 255 -> fmt_d x = fmt_d y -> x = y.
Proof.
  intros Hx Hy E.
  assert (A : forallb (fun k => implb (String.eqb (fmt_d x) (fmt_d (Z.of_nat k)))
                                  (x =? Z.of_nat k)) (seq 0 256) = true).
  { apply (below_by_cases
             (fun x => forallb
                         (fun k => implb (String.eqb (fmt_d x)
                                            (fmt_d (Z.of_nat k)))
                                     (x =? Z.of_nat k)) (seq 0 256)) 256);
      [ vm_compute; reflexivity | simpl; lia ]. }
  rewrite forallb_forall in A.
  assert (I : In (Z.to_nat y) (seq 0 256)) by (apply in_seq; lia).
  specialize (A (Z.to_nat y) I).
  rewrite Z2Nat.id in A by lia.
  rewrite <- E, String.eqb_refl in A. cbn [implb] in A.
  apply Z.eqb_eq. exact A.
Qed.

(** X11. Distinct bus and device numbers give distinct device paths: the
    path that [spiOpen] opens determines the bus and the device. *)
Theorem spidev_path_injective :
  forall (bus device bus' device' : Z),
    0 <= bus <= 255 -> 0 <= device <= 255 ->
    0 <= bus' <= 255 -> 0 <= device' <= 255 ->
    spidev_path bus device = spidev_path bus' device' ->
    bus = bus' /\ device = device'.
Proof.
  intros b d b' d' Hb Hd Hb' Hd' E.
  rewrite !spidev_path_text in E by assumption.
  unfold spidev_text in E. simpl in E.
  injection E as E.
  assert (S : split_at "." (fmt_d b ++ String "." (fmt_d d)) =
              split_at "." (fmt_d b' ++ String "." (fmt_d d')))
    by (rewrite E; reflexivity).
  rewrite !split_at_append in S by (apply fmt_d_byte_no_dot; assumption).
  injection S as Sb Sd.
  split; apply fmt_d_byte_inj; assumption.
Qed.

Lemma spidev_path_injective_witness :
  (0 <= 1 <= 255 /\ 0 <= 23 <= 255 /\
   spidev_path 1 23 = spidev_path 1 23) /\ (1 = 1 /\ 23 = 23).
Proof.
  assert (H1 : 0 <= 1 <= 255) by lia.
  assert (H2 : 0 <= 23 <= 255) by lia.
  assert (E : spidev_path 1 23 = spidev_path 1 23) by reflexivity.
  split; [exact (conj H1 (conj H2 E))|].
  exact (spidev_path_injective 1 23 1 23 H1 H2 H1 H2 E).
Defined.

(** X12. The four data functions only transfer: for a length that is a
    valid byte count (0 <= n < INT_MAX), each makes exactly one system
    call, a transfer request on the descriptor it was given; none opens,
    closes or configures anything. *)
Theorem data_functions_only_transfer :
  forall (K : Kernel) (w : World) (spiFD regAdd data n : Z) (buf : buffer),
    0 <= n < INT_MAX ->
    Forall (fun w' =>
              (exists x rc, w' = w ++ [EvMessage spiFD x rc])
              /\ config_log w' = config_log w
              /\ closes w' = closes w
              /\ open_fds w' = open_fds w)
           [ snd (spiReadByte K spiFD regAdd w);
             snd (spiReadBytes K spiFD n regAdd w);
             snd (spiWriteRegByte K spiFD regAdd data w);
             snd (spiWriteBytes K spiFD buf n w) ].
Proof.
  intros K w fd regAdd data n buf Hn.
  assert (G : forall x rc,
             (exists x' rc', w ++ [EvMessage fd x rc] =
                             w ++ [EvMessage fd x' rc'])
             /\ config_log (w ++ [EvMessage fd x rc]) = config_log w
             /\ closes (w ++ [EvMessage fd x rc]) = closes w
             /\ open_fds (w ++ [EvMessage fd x rc]) = open_fds w).
  { intros x rc. split; [exists x, rc; reflexivity|].
    rewrite config_log_app, closes_app, open_fds_app_message. simpl.
    rewrite !app_nil_r. repeat split. }
  rewrite spiReadByte_eq, spiReadBytes_eq, spiWriteRegByte_eq,
    spiWriteBytes_eq.
  cbv zeta. cbn [snd].
  repeat constructor; apply G.
Qed.

Lemma data_functions_only_transfer_witness :
  0 <= 2 < INT_MAX
  /\ Forall (fun w' =>
               (exists x rc, w' = [] ++ [EvMessage 3 x rc])
               /\ config_log w' = config_log []
               /\ closes w' = closes []
               /\ open_fds w' = open_fds [])
            [ snd (spiReadByte K_ok 3 5 []);
              snd (spiReadBytes K_ok 3 2 5 []);
              snd (spiWriteRegByte K_ok 3 5 8 []);
              snd (spiWriteBytes K_ok 3 [16; 32] 2 []) ].
Proof.
  assert (H : 0 <= 2 < INT_MAX) by (unfold INT_MAX; lia).
  split; [exact H|].
  exact (data_functions_only_transfer K_ok [] 3 5 8 2 [16; 32] H).
Defined.

(** X13. A setter only configures: it issues its write request and, if
    that did not fail, its read request, both on the descriptor and with
    the value it was given; it returns 0 or -1, transfers nothing and
    leaves the open descriptors as they were. *)
Theorem setters_only_configure :
  forall (K : Kernel) (w : World) (spiFD v : Z),
    let footprint (r : Z * World) (wr rd : request) (a : Z) :=
      (fst r = 0 \/ fst r = -1)
      /\ (config_log (snd r) = config_log w ++ [(spiFD, wr, a)]
          \/ config_log (snd r) =
               config_log w ++ [(spiFD, wr, a); (spiFD, rd, a)])
      /\ (fst r = 0 ->
          config_log (snd r) =
            config_log w ++ [(spiFD, wr, a); (spiFD, rd, a)])
      /\ transfers (snd r) = transfers w
      /\ closes (snd r) = closes w
      /\ open_fds (snd r) = open_fds w in
    footprint (spiSetMode K spiFD v w) SPI_IOC_WR_MODE SPI_IOC_RD_MODE (u8 v)
    /\ footprint (spiSetSpeed K spiFD v w)
         SPI_IOC_WR_MAX_SPEED_HZ SPI_IOC_RD_MAX_SPEED_HZ (u32 v)
    /\ footprint (spiSetBitsPerWord K spiFD v w)
         SPI_IOC_WR_BITS_PER_WORD SPI_IOC_RD_BITS_PER_WORD (u8 v).
Proof.
  intros K w fd v footprint.
  assert (G : forall (r : Z * World) wr rd a,
             (exists l,
                 snd r = w ++ l /\ forallb is_config l = true /\
                 ((fst r = -1 /\
                   (config_log l = [(fd, wr, a)] \/
                    config_log l = [(fd, wr, a); (fd, rd, a)]))
                  \/ (fst r = 0 /\
                      config_log l = [(fd, wr, a); (fd, rd, a)]))) ->
             footprint r wr rd a).
  { intros r wr rd a [l [E [C R]]]. unfold footprint.
    rewrite E, config_log_app, transfers_app, closes_app,
      (transfers_config l C), (closes_config l C),
      (open_fds_app_config w l C), !app_nil_r.
    destruct R as [[R [L|L]]|[R L]]; rewrite L, R;
      repeat split; auto; intros; discriminate. }
  split; [|split]; apply G.
  - apply spiSetMode_shape.
  - apply spiSetSpeed_shape.
  - apply spiSetBitsPerWord_shape.
Qed.

Lemma setters_only_configure_witness :
  fst (spiSetSpeed K_ok 3 500000 []) = 0
  /\ config_log (snd (spiSetSpeed K_ok 3 500000 [])) =
       [ (3, SPI_IOC_WR_MAX_SPEED_HZ, 500000);
         (3, SPI_IOC_RD_MAX_SPEED_HZ, 500000) ].
Proof.
  assert (H : fst (spiSetSpeed K_ok 3 500000 []) = 0) by reflexivity.
  split; [exact H|].
  destruct (setters_only_configure K_ok [] 3 500000) as [_ [S _]].
  destruct S as [_ [_ [S _]]].
  exact (S H).
Defined.
